(** * The training and evaluation loops of the GluonNLP language-model notebook

    A shallow embedding of [06_recurrence/language_model.ipynb]: the
    [evaluate] function, the epoch loop of [train] with its
    decay-on-plateau learning-rate schedule, and the collaborators they
    call.  Python floats and NumPy float64 scalars are IEEE binary64
    numbers, modelled by Rocq's primitive [float]; Python integers are [Z];
    an uncaught Python exception is the [Raise] outcome of a result type. *)

From Stdlib Require Import List ZArith Bool Lia Arith PeanoNat.
From Stdlib Require Import Floats Uint63.
Import ListNotations.

Set Implicit Arguments.
Local Open Scope Z_scope.

(** ** Exceptions and results *)

(** The exceptions the notebook's own arithmetic can raise: a Python float
    divided by zero, and [math.exp] out of range.  [FrameworkError] stands
    for any failure raised inside a collaborator. *)
Inductive Exn : Type :=
| ZeroDivisionError
| OverflowError
| FrameworkError.

Inductive Res (A : Type) : Type :=
| Ret (a : A)
| Raise (e : Exn).

Arguments Ret {A} a.
Arguments Raise {A} e.

(** ** Scalars *)

(** [total_L] starts as the Python float [0.0]; [total_L += x] with [x] a
    NumPy float32 scalar rebinds it to a NumPy float64 scalar.  The two
    kinds hold the same binary64 numbers and differ in what a division by
    zero does. *)
Inductive scalar : Type :=
| PyFloat (x : float)
| NpFloat64 (x : float).

Definition scalar_val (s : scalar) : float :=
  match s with PyFloat x => x | NpFloat64 x => x end.

(** A Python integer converted to binary64 (token counts stay far below
    [2^63], where [of_uint63] is the correctly rounded conversion). *)
Definition float_of_int (n : Z) : float := of_uint63 (Uint63.of_Z n).

(** [total += x] where [x] is the result of [asscalar()]. *)
Definition iadd (total : scalar) (x : float) : scalar :=
  NpFloat64 (scalar_val total + x)%float.

(** [total / n] with [n] a Python integer: a Python float raises on a zero
    divisor, a NumPy float64 follows IEEE 754 (inf or nan, no exception). *)
Definition div_int (total : scalar) (n : Z) : Res float :=
  match total with
  | PyFloat x =>
      if (n =? 0)%Z then Raise ZeroDivisionError
      else Ret (x / float_of_int n)%float
  | NpFloat64 x => Ret (x / float_of_int n)%float
  end.

(** ** Batches *)

(** Token identifiers are natural numbers; the data and the target of a
    batch are [bptt] rows of [batch_size] tokens each. *)
Definition Matrix : Type := list (list nat).
Definition Batch : Type := (Matrix * Matrix)%type.

(** [target.reshape(-1)]. *)
Definition reshape_flat (m : Matrix) : list nat := concat m.

(** A matrix of [bptt] rows of [batch_size] tokens. *)
Definition full_shape (bptt batch_size : nat) (m : Matrix) : Prop :=
  length m = bptt /\ Forall (fun row => length row = batch_size) m.

(** ** The external collaborators *)

(** What the notebook takes from MXNet, Gluon and Python's [math], opaque
    here: the model's parameters, its recurrent state, its output, and loss
    arrays, with the operations the notebook calls on them. *)
Class Externals : Type := {
  Params : Type;
  Hidden : Type;
  Output : Type;
  NDArray : Type;
  (** [model.begin_state(batch_size=..., func=mx.nd.zeros, ctx=ctx)]:
      the all-zero initial state. *)
  begin_state : Z -> Hidden;
  (** [model(data, hidden)] under the given parameters. *)
  model : Params -> Matrix -> Hidden -> Output * Hidden;
  (** [loss(output.reshape(-3, -1), target.reshape(-1))]. *)
  loss : Output -> list nat -> NDArray;
  (** [mx.nd.sum(L).asscalar()] and [L.size]. *)
  nd_sum : NDArray -> float;
  nd_size : NDArray -> Z;
  (** [math.exp], which raises [OverflowError] out of range. *)
  math_exp : float -> Res float
}.

(** ** A state monad with exceptions *)

(** A computation over a mutable state [S]: what a Python exception leaves
    behind (output already printed, parameters already updated) stays in
    the state. *)
Definition Run (S A : Type) : Type := S -> Res A * S.

Definition ret {S A : Type} (a : A) : Run S A := fun s => (Ret a, s).

Definition bind {S A B : Type} (m : Run S A) (f : A -> Run S B) : Run S B :=
  fun s =>
    match m s with
    | (Ret a, s') => f a s'
    | (Raise e, s') => (Raise e, s')
    end.

Definition lift {S A : Type} (r : Res A) : Run S A := fun s => (r, s).

Notation "x <- m ;; k" := (bind m (fun x => k))
  (at level 61, m at next level, right associativity).
Notation "m ;;; k" := (bind m (fun _ => k))
  (at level 61, right associativity).

(** [for x in l: f(x)]; an exception leaves the loop. *)
Fixpoint for_each {S A : Type} (f : A -> Run S unit) (l : list A)
  : Run S unit :=
  match l with
  | [] => ret tt
  | x :: rest => f x ;;; for_each f rest
  end.

(** [enumerate(l)]. *)
Definition enumerate {A : Type} (l : list A) : list (nat * A) :=
  combine (seq 0 (length l)) l.

(** ** [evaluate] *)

Section Evaluation.

Context {E : Externals}.

(** The variables of the loop of [evaluate], and the list of the calls
    [model(data, hidden)] it has made so far, oldest first. *)
Record EvalState : Type := mkEvalState {
  total_L : scalar;
  ntotal : Z;
  hidden : Hidden;
  forward_calls : list (Matrix * Hidden)
}.

Definition evaluate_init (batch_size : Z) : EvalState :=
  {| total_L := PyFloat 0%float;
     ntotal := 0;
     hidden := begin_state batch_size;
     forward_calls := [] |}.

(** One iteration of [for i, (data, target) in enumerate(data_source)]. *)
Definition evaluate_step (params : Params) (st : EvalState) (b : Batch)
  : EvalState :=
  let '(data, target) := b in
  let '(output, hidden') := model params data (hidden st) in
  let L := loss output (reshape_flat target) in
  {| total_L := iadd (total_L st) (nd_sum L);
     ntotal := ntotal st + nd_size L;
     hidden := hidden';
     forward_calls := forward_calls st ++ [(data, hidden st)] |}.

Definition evaluate_loop (params : Params) (data_source : list Batch)
    (batch_size : Z) : EvalState :=
  fold_left (evaluate_step params) data_source (evaluate_init batch_size).

(** [evaluate(model, data_source, batch_size, ctx)]; the device [ctx] only
    places the arrays and does not change a value. *)
Definition evaluate (params : Params) (data_source : list Batch)
    (batch_size : Z) : Res float :=
  let st := evaluate_loop params data_source batch_size in
  div_int (total_L st) (ntotal st).

(** *** The average loss in the spec's words *)

(** The loss arrays of the batches of a segment, in segment order, the
    recurrent state being carried from each batch to the next. *)
Fixpoint segment_losses (params : Params) (h : Hidden)
    (data_source : list Batch) : list NDArray :=
  match data_source with
  | [] => []
  | (data, target) :: rest =>
      let '(output, h') := model params data h in
      loss output (reshape_flat target) :: segment_losses params h' rest
  end.

(** Sum of the per-token losses of the listed arrays, added one batch
    after the other to [0.0]. *)
Definition loss_sum (Ls : list NDArray) : float :=
  fold_left (fun acc L => (acc + nd_sum L)%float) Ls 0%float.

(** Number of tokens in the listed arrays. *)
Definition token_count (Ls : list NDArray) : Z :=
  fold_left (fun n L => n + nd_size L) Ls 0.

Definition average_loss (Ls : list NDArray) : float :=
  (loss_sum Ls / float_of_int (token_count Ls))%float.

End Evaluation.

(** ** [train] *)

(** [train_one_epoch] of the notebook's [utilities] module, taken as a
    parameter of [train]: it reads the trainer's learning rate, updates the
    model's parameters in place, and may fail. *)
Class Utilities (E : Externals) : Type := {
  train_one_epoch :
    nat (* epoch *) -> list Batch (* train_data *) -> Z (* batch_size *) ->
    float (* grad_clip *) -> Z (* log_interval *) ->
    Params -> float (* the trainer's learning rate *) -> Res Params
}.

(** The two segments [train] evaluates on: [val_data] at line 394,
    [test_data] at line 399. *)
Inductive Split : Type := ValData | TestData.

(** What a run of [train] does that can be observed from outside: the
    calls it makes and the lines [train] itself prints (elapsed times left
    out).  The lines [train_one_epoch] prints while it runs are not among
    these events. *)
Inductive Event : Type :=
| EvTrainOneEpoch (epoch : nat)
| EvEvaluate (which : Split)
| EvPrintValid (epoch : nat) (val_L ppl : float)
| EvPrintTest (test_L ppl : float)
| EvSetLearningRate (lr : float)
| EvPrintThroughput (samples : Z).

Section Training.

Context {E : Externals} {U : Utilities E}.

(** The variables of [train] ([best_val], [lr]), the objects it mutates
    (the model's parameters, the learning rate held by the global
    [trainer]) and the events so far, oldest first. *)
Record TrainState : Type := mkTrainState {
  best_val : float;
  lr : float;
  params : Params;
  trainer_lr : float;
  trace : list Event
}.

Definition emit (e : Event) : Run TrainState unit :=
  fun s =>
    (Ret tt,
     {| best_val := best_val s; lr := lr s; params := params s;
        trainer_lr := trainer_lr s; trace := trace s ++ [e] |}).

Definition set_best_val (v : float) : Run TrainState unit :=
  fun s =>
    (Ret tt,
     {| best_val := v; lr := lr s; params := params s;
        trainer_lr := trainer_lr s; trace := trace s |}).

Definition set_lr (v : float) : Run TrainState unit :=
  fun s =>
    (Ret tt,
     {| best_val := best_val s; lr := v; params := params s;
        trainer_lr := trainer_lr s; trace := trace s |}).

Definition get {A : Type} (f : TrainState -> A) : Run TrainState A :=
  fun s => (Ret (f s), s).

(** [train_one_epoch(epoch, model, train_data, ...)]. *)
Definition call_train_one_epoch (epoch : nat) (train_data : list Batch)
    (batch_size : Z) (grad_clip : float) (log_interval : Z)
  : Run TrainState unit :=
  emit (EvTrainOneEpoch epoch) ;;;
  fun s =>
    match train_one_epoch epoch train_data batch_size grad_clip
            log_interval (params s) (trainer_lr s) with
    | Ret p =>
        (Ret tt,
         {| best_val := best_val s; lr := lr s; params := p;
            trainer_lr := trainer_lr s; trace := trace s |})
    | Raise e => (Raise e, s)
    end.

(** [evaluate(model, data, batch_size, context[0])] on one of the two
    segments. *)
Definition call_evaluate (which : Split) (data_source : list Batch)
    (batch_size : Z) : Run TrainState float :=
  emit (EvEvaluate which) ;;;
  fun s => (evaluate (params s) data_source batch_size, s).

(** [trainer.set_learning_rate(lr)]. *)
Definition set_learning_rate (v : float) : Run TrainState unit :=
  emit (EvSetLearningRate v) ;;;
  fun s =>
    (Ret tt,
     {| best_val := best_val s; lr := lr s; params := params s;
        trainer_lr := v; trace := trace s |}).

(** The body of [for epoch in range(epochs)], lines 390 to 403.  The
    clock readings and [mx.nd.waitall()] change no value and are left
    out; the validation line needs [math.exp(val_L)] before the
    comparison is reached. *)
Definition epoch_body (train_data val_data test_data : list Batch)
    (batch_size : Z) (grad_clip : float) (log_interval : Z) (epoch : nat)
  : Run TrainState unit :=
  call_train_one_epoch epoch train_data batch_size grad_clip log_interval ;;;
  val_L <- call_evaluate ValData val_data batch_size ;;
  ppl <- lift (math_exp val_L) ;;
  emit (EvPrintValid epoch val_L ppl) ;;;
  best <- get best_val ;;
  if (val_L <? best)%float then
    set_best_val val_L ;;;
    test_L <- call_evaluate TestData test_data batch_size ;;
    test_ppl <- lift (math_exp test_L) ;;
    emit (EvPrintTest test_L test_ppl)
  else
    cur <- get lr ;;
    set_lr (cur * 0.25)%float ;;;
    new <- get lr ;;
    set_learning_rate new.

(** The first [k] iterations of the loop. *)
Definition run_epochs (train_data val_data test_data : list Batch)
    (batch_size : Z) (grad_clip : float) (log_interval : Z) (k : nat)
  : Run TrainState unit :=
  for_each
    (epoch_body train_data val_data test_data batch_size grad_clip
       log_interval)
    (seq 0 k).

(** [train] from its first line to the end of its [k]-th epoch:
    [best_val = float("Inf")], [lr] bound to the argument, then [k]
    iterations. *)
Definition train_upto (train_data val_data test_data : list Batch)
    (batch_size : Z) (grad_clip : float) (log_interval : Z)
    (lr0 : float) (k : nat) : Run TrainState unit :=
  set_best_val infinity ;;;
  set_lr lr0 ;;;
  run_epochs train_data val_data test_data batch_size grad_clip
    log_interval k.

(** [train(model, train_data, val_data, test_data, batch_size, grad_clip,
    log_interval, loss, epochs, lr)].  The last line prints
    [batch_size * len(train_data) * epochs] over the elapsed time; the
    event keeps the number of samples. *)
Definition train (train_data val_data test_data : list Batch)
    (batch_size : Z) (grad_clip : float) (log_interval : Z)
    (epochs : nat) (lr0 : float) : Run TrainState unit :=
  train_upto train_data val_data test_data batch_size grad_clip
    log_interval lr0 epochs ;;;
  emit (EvPrintThroughput
          (batch_size * Z.of_nat (length train_data) * Z.of_nat epochs)).

(** The events of a state that come after those of an earlier one. *)
Definition events_since (s s' : TrainState) : list Event :=
  skipn (length (trace s)) (trace s').

End Training.

(** ** The batchifier *)

Module Batchify.

(** Modelled from the spec: the length of each of the [batch_size]
    parallel streams the corpus is cut into by [CorpusBPTTBatchify], whose
    code (GluonNLP) is not among the sources; the tokens that do not fill
    the streams evenly are discarded. *)
Definition stream_len (batch_size : nat) (corpus : list nat) : nat :=
  (length corpus / batch_size)%nat.

(** Modelled from the spec: the streams of [CorpusBPTTBatchify] side by
    side; row [t] holds the token at position [t] of every stream. *)
Definition corpus_rows (batch_size : nat) (corpus : list nat) : Matrix :=
  let n := stream_len batch_size corpus in
  map (fun t => map (fun j => nth (j * n + t)%nat corpus 0%nat)
                    (seq 0 batch_size))
      (seq 0 n).

(** Modelled from the spec: the windows [CorpusBPTTBatchify] slides over
    the streams, first to last.  A batch is a window of [bptt] consecutive
    positions of all streams, its target the same window shifted by one
    token; a remainder that does not fill a window of data and of target
    is discarded. *)
Fixpoint windows (fuel bptt : nat) (rows : Matrix) : list Batch :=
  match fuel with
  | O => []
  | S fuel' =>
      let data := firstn bptt rows in
      let target := firstn bptt (skipn 1 rows) in
      if ((length data =? bptt)%nat && (length target =? bptt)%nat)%bool
      then (data, target) :: windows fuel' bptt (skipn bptt rows)
      else []
  end.

(** Modelled from the spec: [CorpusBPTTBatchify(vocab, bptt, batch_size,
    last_batch='discard')] of the GluonNLP library, which the notebook
    calls at lines 214 to 218 and whose code is not among the sources,
    applied to a corpus of token identifiers. *)
Definition bptt_batchify (bptt batch_size : nat) (corpus : list nat)
  : list Batch :=
  let rows := corpus_rows batch_size corpus in
  windows (length rows) bptt rows.

End Batchify.

(** ** One training epoch *)

Module TrainOneEpoch.

(** Modelled from the spec: what the training epoch takes from the
    framework besides the forward pass, the code of [utilities] not being
    among the sources: the gradients of a loss through the forward passes
    in its recorded history, the clipping of their global norm, and one
    step of stochastic gradient descent at a learning rate. *)
Class Autodiff (E : Externals) : Type := {
  Grads : Type;
  backward : Params -> NDArray -> list nat -> Grads;
  clip_global_norm : Grads -> float -> Grads;
  sgd_step : Params -> Grads -> float -> Params
}.

Section Model.

Context {E : Externals} {A : Autodiff E}.

(** A recurrent state together with its computation history: the
    indices of the batches whose recorded forward passes it was
    computed from, latest first. *)
Record Tracked : Type := mkTracked {
  value : Hidden;
  history : list nat
}.

(** Modelled from the spec: [detach] of the notebook's [utilities]
    module, whose code is not among the sources.  It keeps the value
    and severs the computation history. *)
Definition detach (h : Tracked) : Tracked :=
  {| value := value h; history := [] |}.

(** The forward pass on batch [i] with the state it is fed, the
    backward pass of batch [i] with the batches its gradients reach,
    and the log lines (throughput left out). *)
Inductive TrainEvent : Type :=
| TeForward (i : nat) (data : Matrix) (h : Tracked)
| TeBackward (i : nat) (reach : list nat)
| TeLog (epoch i : nat) (avg ppl : float).

Record LoopState : Type := mkLoopState {
  tl_params : Params;
  tl_hidden : Tracked;
  tl_total_L : float;
  tl_ntotal : Z;
  tl_trace : list TrainEvent
}.

(** Modelled from the spec: the rolling log of [train_one_epoch]; every
    [log_interval] batches, the average loss and its exponential are
    printed and the accumulators start again. *)
Definition rolling_log (epoch i : nat) (log_interval : Z)
  : Run LoopState unit :=
  fun st =>
    if ((Z.of_nat i + 1) mod log_interval =? 0) then
      let avg := (tl_total_L st / float_of_int (tl_ntotal st))%float in
      match math_exp avg with
      | Ret ppl =>
          (Ret tt,
           {| tl_params := tl_params st; tl_hidden := tl_hidden st;
              tl_total_L := 0%float; tl_ntotal := 0;
              tl_trace := tl_trace st ++ [TeLog epoch i avg ppl] |})
      | Raise e => (Raise e, st)
      end
    else (Ret tt, st).

(** Modelled from the spec: one training batch of [train_one_epoch]:
    detach, forward, loss, gradients, clipping, optimizer step,
    accumulation. *)
Definition train_batch (epoch : nat) (grad_clip : float)
    (log_interval : Z) (lr : float) (ib : nat * Batch)
  : Run LoopState unit :=
  (fun st =>
     let '(i, (data, target)) := ib in
     let h := detach (tl_hidden st) in
     let '(output, v') := model (tl_params st) data (value h) in
     let reach := i :: history h in
     let L := loss output (reshape_flat target) in
     let g := clip_global_norm (backward (tl_params st) L reach)
                grad_clip in
     (Ret tt,
      {| tl_params := sgd_step (tl_params st) g lr;
         tl_hidden := {| value := v'; history := reach |};
         tl_total_L := (tl_total_L st + nd_sum L)%float;
         tl_ntotal := tl_ntotal st + nd_size L;
         tl_trace := tl_trace st ++ [TeForward i data h;
                                     TeBackward i reach] |})) ;;;
  rolling_log epoch (fst ib) log_interval.

(** Modelled from the spec: the state in which [train_one_epoch] starts
    an epoch, the recurrent state reset to its initial value. *)
Definition loop_init (p : Params) (batch_size : Z) : LoopState :=
  {| tl_params := p;
     tl_hidden := {| value := begin_state batch_size; history := [] |};
     tl_total_L := 0%float;
     tl_ntotal := 0;
     tl_trace := [] |}.

(** Modelled from the spec: [train_one_epoch] of the notebook's
    [utilities] module, whose code is not among the sources.  The
    recurrent state is reset to its initial value, then every training
    batch is processed in corpus order. *)
Definition train_one_epoch_run (epoch : nat) (train_data : list Batch)
    (batch_size : Z) (grad_clip : float) (log_interval : Z)
    (p : Params) (lr : float) : Res unit * LoopState :=
  for_each (train_batch epoch grad_clip log_interval lr)
    (enumerate train_data) (loop_init p batch_size).

(** Modelled from the spec: [train_one_epoch] as [train] calls it,
    leaving the updated parameters or the exception. *)
Definition train_one_epoch_model (epoch : nat) (train_data : list Batch)
    (batch_size : Z) (grad_clip : float) (log_interval : Z)
    (p : Params) (lr : float) : Res Params :=
  match train_one_epoch_run epoch train_data batch_size grad_clip
          log_interval p lr with
  | (Ret _, st) => Ret (tl_params st)
  | (Raise e, _) => Raise e
  end.

(** The data of the forward passes of a trace, in order. *)
Fixpoint forward_data (tr : list TrainEvent) : list Matrix :=
  match tr with
  | [] => []
  | TeForward _ data _ :: rest => data :: forward_data rest
  | _ :: rest => forward_data rest
  end.

(** Every state fed to the model comes without history, and the
    gradients of a batch reach that batch alone. *)
Definition truncated (ev : TrainEvent) : Prop :=
  match ev with
  | TeForward _ _ h => history h = []
  | TeBackward i reach => reach = [i]
  | TeLog _ _ _ _ => True
  end.

End Model.

(** The modelled epoch as the [train_one_epoch] that [train] calls. *)
Definition utilities_model (E : Externals) (A : Autodiff E)
  : Utilities E :=
  {| train_one_epoch := train_one_epoch_model |}.

End TrainOneEpoch.

(** ** Truncated backpropagation in the spec's words *)

Module TruncatedPass.

Import TrainOneEpoch.

Section Pass.

Context {E : Externals} {A : Autodiff E}.

(** Modelled from the spec: the pass over the training batches that the
    spec asks of [train_one_epoch], whose code is not among the sources,
    written without [detach].  Every batch is fed the value the batch
    before it returned, with no computation history; its gradients reach
    its own forward pass alone; the parameters move by one clipped step of
    gradient descent per batch. *)
Fixpoint truncated_pass (grad_clip lr : float) (p : Params) (v : Hidden)
    (batches : list (nat * Batch)) : list TrainEvent :=
  match batches with
  | [] => []
  | (i, (data, target)) :: rest =>
      let '(output, v') := model p data v in
      let L := loss output (reshape_flat target) in
      let g := clip_global_norm (backward p L [i]) grad_clip in
      TeForward i data {| value := v; history := [] |}
      :: TeBackward i [i]
      :: truncated_pass grad_clip lr (sgd_step p g lr) v' rest
  end.

(** A trace without its log lines. *)
Fixpoint without_logs (tr : list TrainEvent) : list TrainEvent :=
  match tr with
  | [] => []
  | TeLog _ _ _ _ :: rest => without_logs rest
  | ev :: rest => ev :: without_logs rest
  end.

End Pass.

End TruncatedPass.

(** ** The environment cells *)

(** The devices of [mx.gpu(i)] and [mx.cpu()]. *)
Inductive Device : Type :=
| gpu (i : Z)
| cpu.

(** [range(n)]: empty when [n] is not positive. *)
Definition range (n : Z) : list Z := map Z.of_nat (seq 0 (Z.to_nat n)).

(** Line 151:
    [context = [mx.gpu(i) for i in range(num_gpus)] if num_gpus else [mx.cpu()]];
    an integer is false exactly when it is zero. *)
Definition context (num_gpus : Z) : list Device :=
  if num_gpus =? 0 then [cpu] else map gpu (range num_gpus).

(** Line 176: [batch_size = 64 * len(context)]. *)
Definition batch_size_of (num_gpus : Z) : Z :=
  64 * Z.of_nat (length (context num_gpus)).

(** ** Reading a run *)

(** The calls [model(data, hidden)] of a pass over a segment in which
    every batch is fed the state the batch before it returned, started
    from [h]. *)
Fixpoint carried_calls {E : Externals} (p : Params) (h : Hidden)
    (data_source : list Batch) : list (Matrix * Hidden) :=
  match data_source with
  | [] => []
  | (data, _) :: rest =>
      (data, h) :: carried_calls p (snd (model p data h)) rest
  end.

(** The state such a pass ends with. *)
Fixpoint carried_state {E : Externals} (p : Params) (h : Hidden)
    (data_source : list Batch) : Hidden :=
  match data_source with
  | [] => h
  | (data, _) :: rest => carried_state p (snd (model p data h)) rest
  end.

(** The epochs for which [train_one_epoch] was called, in order. *)
Fixpoint trained_epochs (tr : list Event) : list nat :=
  match tr with
  | [] => []
  | EvTrainOneEpoch epoch :: rest => epoch :: trained_epochs rest
  | _ :: rest => trained_epochs rest
  end.

(** The epochs and the losses of the validation lines printed, in order. *)
Fixpoint reported_epochs (tr : list Event) : list nat :=
  match tr with
  | [] => []
  | EvPrintValid epoch _ _ :: rest => epoch :: reported_epochs rest
  | _ :: rest => reported_epochs rest
  end.

Fixpoint reported_losses (tr : list Event) : list float :=
  match tr with
  | [] => []
  | EvPrintValid _ val_L _ :: rest => val_L :: reported_losses rest
  | _ :: rest => reported_losses rest
  end.

(** How often the test segment was evaluated, and how often the learning
    rate was set. *)
Fixpoint count_test_evals (tr : list Event) : nat :=
  match tr with
  | [] => O
  | EvEvaluate TestData :: rest => S (count_test_evals rest)
  | _ :: rest => count_test_evals rest
  end.

Fixpoint count_decays (tr : list Event) : nat :=
  match tr with
  | [] => O
  | EvSetLearningRate _ :: rest => S (count_decays rest)
  | _ :: rest => count_decays rest
  end.

(** [lr0] after [d] executions of [lr = lr*0.25]. *)
Definition decayed (lr0 : float) (d : nat) : float :=
  Nat.iter d (fun x => (x * 0.25)%float) lr0.

(** ** A small instance to run the loops on *)

Module Toy.

Import TrainOneEpoch.

(** The per-token loss of the toy model after [p] optimizer steps. *)
Definition token_loss (p : nat) : float :=
  nth p [9; 4; 2; 2; 3]%float 1%float.

(** [math.exp] on the toy instance: it raises above the largest argument
    whose exponential is a binary64 number, as Python does; below, the
    value printed is a stand-in. *)
Definition exp_stub (x : float) : Res float :=
  if (0x1.62e42fefa39efp+9 <? x)%float && is_finite x
  then Raise OverflowError
  else Ret (1 + x)%float.

(** Parameters are the number of optimizer steps taken, the recurrent
    state the number of batches seen since it was reset, a loss array the
    list of its per-token losses. *)
Definition externals : Externals :=
  {| Params := nat;
     Hidden := nat;
     Output := nat;
     NDArray := list float;
     begin_state := fun _ => 0%nat;
     model := fun p _ h => (p, S h);
     loss := fun p target => map (fun _ => token_loss p) target;
     nd_sum := fun L => fold_left PrimFloat.add L 0%float;
     nd_size := fun L => Z.of_nat (length L);
     math_exp := exp_stub |}.

Definition autodiff : Autodiff externals :=
  {| Grads := unit;
     backward := fun _ _ _ => tt;
     clip_global_norm := fun g _ => g;
     sgd_step := fun (p : @Params externals) _ _ => S p |}.

Definition utilities : Utilities externals := utilities_model autodiff.

(** Segments cut with [bptt = 2] and [batch_size = 2]: one training
    batch, two validation batches, one test batch. *)
Definition train_data : list Batch :=
  Batchify.bptt_batchify 2 2 [1; 2; 3; 4; 5; 6]%nat.
Definition val_data : list Batch :=
  Batchify.bptt_batchify 2 2 [1; 2; 3; 4; 5; 6; 7; 8; 9; 10; 11]%nat.
Definition test_data : list Batch :=
  Batchify.bptt_batchify 2 2 [6; 5; 4; 3; 2; 1]%nat.

(** The state before [train] is called: untrained parameters, a trainer
    built with learning rate 20, nothing printed. *)
Definition start : @TrainState externals :=
  @mkTrainState externals 0%float 0%float 0%nat 20%float [].

(** The state after [k] epochs of [train(..., lr=20)]. *)
Abbreviation after k :=
  (@train_upto externals utilities train_data val_data test_data
     2 0.25%float 200 20%float k start).

(** The states at the first four epoch boundaries. *)
Definition state1 : @TrainState externals :=
  Eval vm_compute in snd (after 1).
Definition state2 : @TrainState externals :=
  Eval vm_compute in snd (after 2).
Definition state3 : @TrainState externals :=
  Eval vm_compute in snd (after 3).
Definition state4 : @TrainState externals :=
  Eval vm_compute in snd (after 4).

End Toy.

(** ** Runs of the small instance that raise *)

Module ToyFailing.

Import Toy.

(** [train(..., lr=20)] with an empty validation segment. *)
Abbreviation without_val k :=
  (@train_upto externals utilities train_data [] test_data
     2 0.25%float 200 20%float k start).

(** [train(..., lr=20)] with an empty test segment. *)
Abbreviation without_test k :=
  (@train_upto externals utilities train_data val_data []
     2 0.25%float 200 20%float k start).

Definition started_test : @TrainState externals :=
  Eval vm_compute in snd (without_test 0).
Definition stopped_test : @TrainState externals :=
  Eval vm_compute in snd (without_test 1).

(** A model whose loss stops being a number after its second optimizer
    step, and the run of [train(..., lr=20)] on it. *)
Definition externals_nan : Externals :=
  {| Params := nat;
     Hidden := nat;
     Output := nat;
     NDArray := list float;
     begin_state := fun _ => 0%nat;
     model := fun p _ h => (p, S h);
     loss := fun p target => map (fun _ => nth p [9; 4]%float nan) target;
     nd_sum := fun L => fold_left PrimFloat.add L 0%float;
     nd_size := fun L => Z.of_nat (length L);
     math_exp := exp_stub |}.

Definition autodiff_nan : TrainOneEpoch.Autodiff externals_nan :=
  {| TrainOneEpoch.Grads := unit;
     TrainOneEpoch.backward := fun _ _ _ => tt;
     TrainOneEpoch.clip_global_norm := fun g _ => g;
     TrainOneEpoch.sgd_step := fun (p : @Params externals_nan) _ _ => S p |}.

Definition utilities_nan : Utilities externals_nan :=
  TrainOneEpoch.utilities_model autodiff_nan.

Definition start_nan : @TrainState externals_nan :=
  @mkTrainState externals_nan 0%float 0%float 0%nat 20%float [].

Abbreviation with_nan k :=
  (@train_upto externals_nan utilities_nan train_data val_data test_data
     2 0.25%float 200 20%float k start_nan).

Definition nan_state1 : @TrainState externals_nan :=
  Eval vm_compute in snd (with_nan 1).
Definition nan_state2 : @TrainState externals_nan :=
  Eval vm_compute in snd (with_nan 2).

End ToyFailing.

(** ** An epoch of three batches, and a first loss too large for [math.exp] *)

Module ToyEpoch.

Import Toy.

(** Three training batches, cut with [bptt = 2] and [batch_size = 2]. *)
Definition train_data3 : list Batch :=
  Batchify.bptt_batchify 2 2
    [1; 2; 3; 4; 5; 6; 7; 8; 9; 10; 11; 12; 13; 14]%nat.

(** One epoch over them, logging every second batch. *)
Abbreviation epoch3 :=
  (@TrainOneEpoch.train_one_epoch_run externals autodiff 0 train_data3
     2 0.25%float 2 0%nat 20%float).

(** A model whose loss is 1000 per token once it has been trained. *)
Definition externals_overflow : Externals :=
  {| Params := nat;
     Hidden := nat;
     Output := nat;
     NDArray := list float;
     begin_state := fun _ => 0%nat;
     model := fun p _ h => (p, S h);
     loss := fun p target => map (fun _ => nth p [9]%float 1000%float) target;
     nd_sum := fun L => fold_left PrimFloat.add L 0%float;
     nd_size := fun L => Z.of_nat (length L);
     math_exp := exp_stub |}.

Definition autodiff_overflow : TrainOneEpoch.Autodiff externals_overflow :=
  {| TrainOneEpoch.Grads := unit;
     TrainOneEpoch.backward := fun _ _ _ => tt;
     TrainOneEpoch.clip_global_norm := fun g _ => g;
     TrainOneEpoch.sgd_step :=
       fun (p : @Params externals_overflow) _ _ => S p |}.

Definition utilities_overflow : Utilities externals_overflow :=
  TrainOneEpoch.utilities_model autodiff_overflow.

Definition start_overflow : @TrainState externals_overflow :=
  @mkTrainState externals_overflow 0%float 0%float 0%nat 20%float [].

(** [train(..., lr=20)] on it, and the states in which its first epoch
    starts and stops. *)
Abbreviation with_overflow k :=
  (@train_upto externals_overflow utilities_overflow train_data val_data
     test_data 2 0.25%float 200 20%float k start_overflow).

Definition overflow_state0 : @TrainState externals_overflow :=
  Eval vm_compute in snd (with_overflow 0).
Definition overflow_state1 : @TrainState externals_overflow :=
  Eval vm_compute in snd (with_overflow 1).

End ToyEpoch.

(** * Properties *)

Unset Implicit Arguments.

(** ** Comparisons of binary64 numbers *)

Lemma eqb_not_ltb (x y : float) :
  (x =? y)%float = true -> (x <? y)%float = false.
Proof.
  rewrite FloatAxioms.eqb_spec, FloatAxioms.ltb_spec. unfold SFeqb, SFltb.
  destruct (SFcompare (Prim2SF x) (Prim2SF y)) as [[ | | ] | ];
    intros H; try reflexivity; discriminate H.
Qed.

Lemma ltb_not_eqb (x y : float) :
  (x <? y)%float = true -> (x =? y)%float = false.
Proof.
  destruct (x =? y)%float eqn:Heq; [ | reflexivity ].
  intros Hlt. rewrite (eqb_not_ltb _ _ Heq) in Hlt. discriminate Hlt.
Qed.

Lemma Prim2SF_infinity : Prim2SF infinity = S754_infinity false.
Proof. reflexivity. Qed.

(** Every finite number is below positive infinity. *)
Lemma finite_ltb_infinity (x : float) :
  is_finite x = true -> (x <? infinity)%float = true.
Proof.
  unfold is_finite. intros H.
  apply negb_true_iff, orb_false_iff in H. destruct H as [Hnan Hinf].
  rewrite FloatAxioms.ltb_spec, Prim2SF_infinity. unfold Prim2SF.
  rewrite Hnan, Hinf.
  destruct (PrimFloat.is_zero x); [ reflexivity | ].
  destruct (Z.frexp x) as [r ex].
  destruct (shr_fexp _ _ _ _ _) as [shr e'].
  destruct (shr_m shr); reflexivity.
Qed.

(** Positive infinity and nan are not below positive infinity. *)
Lemma infinity_not_ltb_infinity : (infinity <? infinity)%float = false.
Proof. reflexivity. Qed.

Lemma nan_not_ltb (x : float) : (nan <? x)%float = false.
Proof. rewrite FloatAxioms.ltb_spec. reflexivity. Qed.

(** [<] on binary64 numbers is transitive: it compares sign, exponent
    and mantissa in this order. *)
Lemma SFltb_trans (x y z : spec_float) :
  SFltb x y = true -> SFltb y z = true -> SFltb x z = true.
Proof.
  unfold SFltb.
  destruct x as [sx | sx | | sx mx ex], y as [sy | sy | | sy my ey],
    z as [sz | sz | | sz mz ez]; cbn [SFcompare];
    repeat match goal with b : bool |- _ => destruct b end;
    intros Hxy Hyz; try discriminate; try reflexivity;
    change (Pos.compare_cont Eq) with Pos.compare in *;
    destruct (Z.compare_spec ex ey), (Z.compare_spec ey ez),
      (Z.compare_spec ex ez); subst; try lia; try discriminate;
      try reflexivity;
    destruct (Pos.compare_spec mx my), (Pos.compare_spec my mz),
      (Pos.compare_spec mx mz); subst; cbn [CompOpp] in *;
      try lia; try discriminate; reflexivity.
Qed.

Lemma ltb_trans (x y z : float) :
  (x <? y)%float = true -> (y <? z)%float = true -> (x <? z)%float = true.
Proof. rewrite !FloatAxioms.ltb_spec. apply SFltb_trans. Qed.

(** ** [evaluate] *)

Section EvaluateProperties.

Context {E : Externals}.

(** The accumulators of the loop, started anywhere, against the loss
    arrays of the segment. *)
Lemma evaluate_fold (p : Params) (data_source : list Batch) :
  forall st : EvalState,
    let st' := fold_left (evaluate_step p) data_source st in
    scalar_val (total_L st') =
      fold_left (fun acc L => (acc + nd_sum L)%float)
        (segment_losses p (hidden st) data_source)
        (scalar_val (total_L st))
    /\ ntotal st' =
         fold_left (fun n L => n + nd_size L)
           (segment_losses p (hidden st) data_source) (ntotal st)
    /\ (data_source <> [] -> total_L st' = NpFloat64 (scalar_val (total_L st'))).
Proof.
  induction data_source as [ | [data target] rest IH ]; intros st.
  - cbn. repeat split. intros H. now contradiction H.
  - cbn [fold_left segment_losses].
    remember (evaluate_step p st (data, target)) as st1 eqn:Hst1.
    unfold evaluate_step in Hst1.
    destruct (model p data (hidden st)) as [output h'].
    specialize (IH st1). cbn zeta in IH.
    destruct IH as (Ht & Hn & Hk).
    subst st1. repeat split.
    + exact Ht.
    + exact Hn.
    + intros _. destruct rest as [ | b rest' ].
      * reflexivity.
      * apply Hk. discriminate.
Qed.

(** The calls made by the loop are kept, in order, by every later
    iteration. *)
Lemma forward_calls_fold (p : Params) (data_source : list Batch) :
  forall st : EvalState,
  exists later,
    forward_calls (fold_left (evaluate_step p) data_source st) =
      forward_calls st ++ later.
Proof.
  induction data_source as [ | [data target] rest IH ]; intros st.
  - exists []. cbn. now rewrite app_nil_r.
  - cbn [fold_left]. destruct (IH (evaluate_step p st (data, target)))
      as [later Hl].
    rewrite Hl. unfold evaluate_step.
    destruct (model p data (hidden st)) as [output h'].
    cbn [forward_calls]. rewrite <- app_assoc. eauto.
Qed.

(** A loss array has one entry per target token, and every target of
    the segment has [bptt] rows of [batch_size] tokens. *)
Lemma length_reshape_flat (bptt batch_size : nat) (m : Matrix) :
  full_shape bptt batch_size m ->
  length (reshape_flat m) = (bptt * batch_size)%nat.
Proof.
  unfold full_shape, reshape_flat. intros [Hlen Hrows]. subst bptt.
  induction Hrows as [ | row rows Hrow _ IH ].
  - reflexivity.
  - cbn [concat length]. rewrite length_app, IH, Hrow. lia.
Qed.

Lemma token_count_full_shape (bptt batch_size : nat) (p : Params) :
  (forall out target, nd_size (loss out target) = Z.of_nat (length target)) ->
  forall (data_source : list Batch) (h : Hidden) (n0 : Z),
    Forall (fun b => full_shape bptt batch_size (snd b)) data_source ->
    fold_left (fun n L => n + nd_size L) (segment_losses p h data_source) n0 =
      n0 + Z.of_nat batch_size * Z.of_nat bptt
           * Z.of_nat (length data_source).
Proof.
  intros Hsize. induction data_source as [ | [data target] rest IH ];
    intros h n0 Hall.
  - cbn. lia.
  - inversion Hall as [ | b l Hb Hrest ]; subst.
    cbn [segment_losses]. destruct (model p data h) as [output h'].
    cbn [fold_left]. rewrite (IH h' _ Hrest), Hsize.
    rewrite (length_reshape_flat bptt batch_size target Hb).
    cbn [length]. lia.
Qed.

End EvaluateProperties.

Section EvaluateClaims.

Context {E : Externals}.

(** C6. On a segment with at least one batch, [evaluate] returns the sum
    of the per-token losses of all its batches, taken in segment order
    with the recurrent state carried from batch to batch, divided by the
    number of tokens of those batches: the average loss per token. *)
Theorem evaluate_average_loss (p : Params) (data_source : list Batch)
    (batch_size : Z) :
  data_source <> [] ->
  evaluate p data_source batch_size =
    Ret (average_loss
           (segment_losses p (begin_state batch_size) data_source)).
Proof.
  intros Hne. unfold evaluate, evaluate_loop, average_loss, loss_sum,
    token_count.
  destruct (evaluate_fold p data_source (evaluate_init batch_size))
    as (Ht & Hn & Hk).
  cbn zeta in Ht, Hn, Hk. rewrite (Hk Hne). unfold div_int.
  rewrite Ht, Hn. reflexivity.
Qed.

(** C7. When every batch of the segment has the full shape of [bptt]
    rows of [batch_size] tokens, which is what discarding the trailing
    partial batch leaves, and the loss has one entry per target token,
    the token count that [evaluate] divides by is
    [batch_size * bptt * number of batches]. *)
Theorem evaluate_token_count (bptt batch_size : nat) (p : Params)
    (data_source : list Batch) :
  (forall out target, nd_size (loss out target) = Z.of_nat (length target)) ->
  Forall (fun b => full_shape bptt batch_size (snd b)) data_source ->
  ntotal (evaluate_loop p data_source (Z.of_nat batch_size)) =
    Z.of_nat batch_size * Z.of_nat bptt * Z.of_nat (length data_source).
Proof.
  intros Hsize Hall. unfold evaluate_loop.
  destruct (evaluate_fold p data_source
              (evaluate_init (Z.of_nat batch_size))) as (_ & Hn & _).
  cbn zeta in Hn. rewrite Hn.
  rewrite (token_count_full_shape bptt batch_size p Hsize data_source
             _ _ Hall).
  cbn [ntotal evaluate_init]. lia.
Qed.

(** C10. On a segment without batches the token count stays zero and the
    final division raises [ZeroDivisionError]; whenever [evaluate]
    returns a value, the segment had at least one batch. *)
Theorem evaluate_empty_raises (p : Params) (batch_size : Z) :
  ntotal (evaluate_loop p [] batch_size) = 0
  /\ evaluate p [] batch_size = Raise ZeroDivisionError
  /\ (forall data_source v,
        evaluate p data_source batch_size = Ret v -> data_source <> []).
Proof.
  repeat split.
  intros data_source v Hv Hnil. subst data_source.
  discriminate Hv.
Qed.

End EvaluateClaims.

(** ** The batchifier *)

Module BatchifyProperties.

Import Batchify.

Lemma length_corpus_rows (batch_size : nat) (corpus : list nat) :
  length (corpus_rows batch_size corpus) = stream_len batch_size corpus.
Proof. unfold corpus_rows. now rewrite length_map, length_seq. Qed.

Lemma corpus_rows_width (batch_size : nat) (corpus : list nat) :
  Forall (fun row => length row = batch_size)
    (corpus_rows batch_size corpus).
Proof.
  unfold corpus_rows. apply Forall_forall. intros row Hin.
  apply in_map_iff in Hin. destruct Hin as (t & <- & _).
  now rewrite length_map, length_seq.
Qed.

(** A window is kept exactly when one more row than [bptt] is left. *)
Lemma window_kept (bptt : nat) (rows : Matrix) :
  (0 < bptt)%nat ->
  ((length (firstn bptt rows) =? bptt)%nat
   && (length (firstn bptt (skipn 1 rows)) =? bptt)%nat)%bool = true
  <-> (bptt < length rows)%nat.
Proof.
  intros Hpos. rewrite andb_true_iff, !Nat.eqb_eq, !length_firstn,
    length_skipn. lia.
Qed.

(** The number of windows: one row is kept back for the shifted target,
    the rest is cut into windows of [bptt] rows. *)
Lemma length_windows (bptt : nat) :
  (0 < bptt)%nat ->
  forall (fuel : nat) (rows : Matrix),
    (length rows <= fuel)%nat ->
    length (windows fuel bptt rows) = ((length rows - 1) / bptt)%nat.
Proof.
  intros Hpos. induction fuel as [ | fuel IH ]; intros rows Hfuel.
  - assert (length rows = 0%nat) as -> by lia.
    cbn [windows length]. symmetry. apply Nat.div_small. lia.
  - cbn [windows].
    destruct ((length (firstn bptt rows) =? bptt)%nat
              && (length (firstn bptt (skipn 1 rows)) =? bptt)%nat)%bool
      eqn:Hkeep.
    + apply (window_kept bptt rows Hpos) in Hkeep.
      cbn [length]. rewrite IH by (rewrite length_skipn; lia).
      rewrite length_skipn.
      replace (length rows - 1)%nat
        with ((length rows - bptt - 1) + 1 * bptt)%nat by lia.
      rewrite Nat.div_add by lia. lia.
    + assert (~ (bptt < length rows)%nat) as Hshort.
      { intros H. apply (window_kept bptt rows Hpos) in H. congruence. }
      cbn [length]. symmetry. apply Nat.div_small. lia.
Qed.

Lemma Forall_firstn {A : Type} (P : A -> Prop) (n : nat) (l : list A) :
  Forall P l -> Forall P (firstn n l).
Proof.
  intros H. rewrite <- (firstn_skipn n l) in H.
  apply Forall_app in H. tauto.
Qed.

Lemma Forall_skipn {A : Type} (P : A -> Prop) (n : nat) (l : list A) :
  Forall P l -> Forall P (skipn n l).
Proof.
  intros H. rewrite <- (firstn_skipn n l) in H.
  apply Forall_app in H. tauto.
Qed.

(** Every window kept has the full shape, data and target alike. *)
Lemma windows_full_shape (bptt batch_size : nat) :
  forall (fuel : nat) (rows : Matrix),
    Forall (fun row => length row = batch_size) rows ->
    Forall (fun b => full_shape bptt batch_size (fst b)
                     /\ full_shape bptt batch_size (snd b))
      (windows fuel bptt rows).
Proof.
  induction fuel as [ | fuel IH ]; intros rows Hw.
  - constructor.
  - cbn [windows].
    destruct ((length (firstn bptt rows) =? bptt)%nat
              && (length (firstn bptt (skipn 1 rows)) =? bptt)%nat)%bool
      eqn:Hkeep; [ | constructor ].
    apply andb_true_iff in Hkeep. destruct Hkeep as [Hd Ht].
    apply Nat.eqb_eq in Hd, Ht.
    constructor.
    + cbn [fst snd]. unfold full_shape. repeat split; try assumption.
      * now apply Forall_firstn.
      * now apply Forall_firstn, Forall_skipn.
    + apply IH. now apply Forall_skipn.
Qed.

(** The batches of a corpus all have [bptt] rows of [batch_size] tokens. *)
Lemma bptt_batchify_full_shape (bptt batch_size : nat) (corpus : list nat) :
  Forall (fun b => full_shape bptt batch_size (snd b))
    (bptt_batchify bptt batch_size corpus).
Proof.
  unfold bptt_batchify.
  eapply Forall_impl;
    [ | apply (windows_full_shape bptt batch_size), corpus_rows_width ].
  intros b [_ H]. exact H.
Qed.

(** The token count of [evaluate] on the batches of a corpus. *)
Lemma evaluate_token_count_batchified {E : Externals} (bptt batch_size : nat)
    (p : Params) (corpus : list nat) :
  (forall out target, nd_size (loss out target) = Z.of_nat (length target)) ->
  ntotal (evaluate_loop p (bptt_batchify bptt batch_size corpus)
            (Z.of_nat batch_size)) =
    Z.of_nat batch_size * Z.of_nat bptt
    * Z.of_nat (length (bptt_batchify bptt batch_size corpus)).
Proof.
  intros Hsize. unfold evaluate_loop.
  destruct (evaluate_fold p (bptt_batchify bptt batch_size corpus)
              (evaluate_init (Z.of_nat batch_size))) as (_ & Hn & _).
  cbn zeta in Hn. rewrite Hn.
  rewrite (token_count_full_shape bptt batch_size p Hsize _ _ _
             (bptt_batchify_full_shape bptt batch_size corpus)).
  cbn [ntotal evaluate_init]. lia.
Qed.

(** The number of batches of a corpus, for any window length. *)
Lemma length_bptt_batchify (bptt batch_size : nat) (corpus : list nat) :
  (0 < bptt)%nat ->
  length (bptt_batchify bptt batch_size corpus) =
    ((length corpus / batch_size - 1) / bptt)%nat.
Proof.
  intros Hpos. unfold bptt_batchify.
  rewrite (length_windows bptt Hpos) by lia.
  now rewrite length_corpus_rows.
Qed.

(** C8, as amended. With [batch_size = 64] and [bptt = 35], a segment of
    [T] tokens gives [floor((floor(T / 64) - 1) / 35)] batches (none when
    [T < 64]): each stream keeps one token back for the target of its
    last window. *)
Theorem train_batches_count (corpus : list nat) :
  length (bptt_batchify 35 64 corpus) =
    ((length corpus / 64 - 1) / 35)%nat.
Proof. apply length_bptt_batchify. lia. Qed.

(** C8 fails as stated: a segment of [2240 = 64 * 35] tokens gives no
    batch, where [floor((T / 64) / 35)] is one. *)
Lemma train_batches_count_not_floor :
  length (bptt_batchify 35 64 (repeat 0%nat 2240)) <>
    ((length (repeat 0%nat 2240) / 64) / 35)%nat.
Proof. vm_compute. discriminate. Qed.

End BatchifyProperties.

(** ** Loops *)

Lemma for_each_app {S A : Type} (f : A -> Run S unit) (l1 l2 : list A)
    (s : S) :
  for_each f (l1 ++ l2) s =
    match for_each f l1 s with
    | (Ret _, s1) => for_each f l2 s1
    | (Raise e, s1) => (Raise e, s1)
    end.
Proof.
  revert s. induction l1 as [ | x l1 IH ]; intros s.
  - reflexivity.
  - cbn [app for_each]. unfold bind.
    destruct (f x s) as [[u | e] s1]; [ apply IH | reflexivity ].
Qed.

Lemma for_each_single {S A : Type} (f : A -> Run S unit) (x : A) (s : S) :
  for_each f [x] s = f x s.
Proof.
  cbn [for_each]. unfold bind, ret.
  destruct (f x s) as [[[] | e] s1]; reflexivity.
Qed.

Lemma skipn_app_exact {A : Type} (l evs : list A) :
  skipn (length l) (l ++ evs) = evs.
Proof. induction l as [ | x l IH ]; [ reflexivity | exact IH ]. Qed.

(** Reduce the state after a step of a run. *)
Ltac run_step := cbn [params trainer_lr best_val lr trace].
Ltac by_eq := first [ reflexivity | assumption ].
Ltac run_step_in H := cbn [params trainer_lr best_val lr trace] in H.

(** ** [train] *)

Section TrainProperties.

Context {E : Externals} {U : Utilities E}.

Variables train_data val_data test_data : list Batch.
Variable batch_size : Z.
Variable grad_clip : float.
Variable log_interval : Z.

Local Abbreviation body :=
  (epoch_body train_data val_data test_data batch_size grad_clip
     log_interval).
Local Abbreviation upto :=
  (train_upto train_data val_data test_data batch_size grad_clip
     log_interval).
Local Abbreviation trained k s :=
  (train_one_epoch k train_data batch_size grad_clip log_interval
     (params s) (trainer_lr s)).

(** One more epoch: the body runs from the state the earlier epochs
    left, unless one of them raised. *)
Lemma train_upto_S (lr0 : float) (k : nat) (s0 : TrainState) :
  upto lr0 (S k) s0 =
    match upto lr0 k s0 with
    | (Ret _, s) => body k s
    | (Raise e, s) => (Raise e, s)
    end.
Proof.
  unfold train_upto, run_epochs, set_best_val, set_lr, bind.
  rewrite seq_S, for_each_app. cbn [Nat.add].
  destruct (for_each _ (seq 0 k) _) as [[u | e] s]; [ | reflexivity ].
  apply for_each_single.
Qed.

(** A run of [train] is its first [epochs] epochs followed by the
    throughput line. *)
Lemma train_is_upto (lr0 : float) (epochs : nat) (s0 : TrainState) :
  train train_data val_data test_data batch_size grad_clip log_interval
    epochs lr0 s0 =
    match upto lr0 epochs s0 with
    | (Ret _, s) =>
        emit (EvPrintThroughput
                (batch_size * Z.of_nat (length train_data)
                 * Z.of_nat epochs)) s
    | (Raise e, s) => (Raise e, s)
    end.
Proof. reflexivity. Qed.

(** The ways through the body of the loop: it stops before the
    validation line is printed, or prints it and takes one of the two
    branches. *)
Lemma epoch_body_cases (k : nat) (s : TrainState) (r : Res unit)
    (s' : TrainState) :
  body k s = (r, s') ->
  exists evs, trace s' = trace s ++ evs /\
  (((evs = [EvTrainOneEpoch k]
    \/ evs = [EvTrainOneEpoch k; EvEvaluate ValData])
   /\ (exists e, r = Raise e)
   /\ best_val s' = best_val s /\ lr s' = lr s
   /\ trainer_lr s' = trainer_lr s)
  \/
  (exists val_L ppl,
     trained k s = Ret (params s')
     /\ evaluate (params s') val_data batch_size = Ret val_L
     /\ math_exp val_L = Ret ppl
     /\ (((val_L <? best_val s)%float = true
          /\ best_val s' = val_L /\ lr s' = lr s
          /\ trainer_lr s' = trainer_lr s
          /\ ((exists e, r = Raise e
               /\ evs = [EvTrainOneEpoch k; EvEvaluate ValData;
                         EvPrintValid k val_L ppl; EvEvaluate TestData]
               /\ (evaluate (params s') test_data batch_size = Raise e
                   \/ exists test_L,
                        evaluate (params s') test_data batch_size
                          = Ret test_L
                        /\ math_exp test_L = Raise e))
              \/ (exists test_L test_ppl,
                    evaluate (params s') test_data batch_size = Ret test_L
                    /\ math_exp test_L = Ret test_ppl
                    /\ r = Ret tt
                    /\ evs = [EvTrainOneEpoch k; EvEvaluate ValData;
                              EvPrintValid k val_L ppl;
                              EvEvaluate TestData;
                              EvPrintTest test_L test_ppl])))
         \/ ((val_L <? best_val s)%float = false
             /\ r = Ret tt
             /\ best_val s' = best_val s
             /\ lr s' = (lr s * 0.25)%float
             /\ trainer_lr s' = (lr s * 0.25)%float
             /\ evs = [EvTrainOneEpoch k; EvEvaluate ValData;
                       EvPrintValid k val_L ppl;
                       EvSetLearningRate (lr s * 0.25)%float])))).
Proof.
  unfold epoch_body, call_train_one_epoch, call_evaluate,
    set_learning_rate, set_best_val, set_lr, get, emit, lift, bind.
  cbn [params trainer_lr best_val lr trace].
  destruct (trained k s) as [p1 | e] eqn:Htrain; run_step.
  2:{ intros H. injection H as <- <-. cbn [trace].
      eexists. split; [ reflexivity | ]. left. eauto 10. }
  destruct (evaluate p1 val_data batch_size) as [val_L | e] eqn:Hval;
    run_step.
  2:{ intros H. injection H as <- <-. cbn [trace].
      rewrite <- app_assoc. eexists. split; [ reflexivity | ].
      left. cbn. eauto 10. }
  destruct (math_exp val_L) as [ppl | e] eqn:Hexp; run_step.
  2:{ intros H. injection H as <- <-. cbn [trace].
      rewrite <- app_assoc. eexists. split; [ reflexivity | ].
      left. cbn. eauto 10. }
  destruct (val_L <? best_val s)%float eqn:Hlt; run_step.
  - destruct (evaluate p1 test_data batch_size) as [test_L | e] eqn:Htest;
      run_step.
    2:{ intros H. injection H as <- <-. run_step.
        rewrite <- !app_assoc. eexists. split; [ reflexivity | ].
        right. exists val_L, ppl. run_step.
        split; [ by_eq | split; [ by_eq | split; [ by_eq | ] ] ].
        left. split; [ by_eq | ]. do 3 (split; [ reflexivity | ]).
        left. exists e. do 2 (split; [ reflexivity | ]). now left. }
    destruct (math_exp test_L) as [test_ppl | e] eqn:Htexp; run_step.
    2:{ intros H. injection H as <- <-. run_step.
        rewrite <- !app_assoc. eexists. split; [ reflexivity | ].
        right. exists val_L, ppl. run_step.
        split; [ by_eq | split; [ by_eq | split; [ by_eq | ] ] ].
        left. split; [ by_eq | ]. do 3 (split; [ reflexivity | ]).
        left. exists e. do 2 (split; [ reflexivity | ]).
        right. exists test_L. split; by_eq. }
    intros H. injection H as <- <-. run_step.
    rewrite <- !app_assoc. eexists. split; [ reflexivity | ].
    right. exists val_L, ppl. run_step.
    split; [ by_eq | split; [ by_eq | split; [ by_eq | ] ] ].
    left. split; [ by_eq | ]. do 3 (split; [ reflexivity | ]).
    right. exists test_L, test_ppl.
    split; [ by_eq | split; [ by_eq | split; reflexivity ] ].
  - intros H. injection H as <- <-. run_step.
    rewrite <- !app_assoc. eexists. split; [ reflexivity | ].
    right. exists val_L, ppl. run_step.
    split; [ by_eq | split; [ by_eq | split; [ by_eq | ] ] ].
    right. split; [ by_eq | ]. repeat split.
Qed.

(** The body of the loop once the validation line can be printed: the
    epoch's training and validation have returned and [math.exp] of the
    validation loss has not raised.  What is left is the comparison and
    its two branches. *)
Lemma epoch_body_reported (k : nat) (s : TrainState) (p1 : Params)
    (val_L ppl : float) :
  trained k s = Ret p1 ->
  evaluate p1 val_data batch_size = Ret val_L ->
  math_exp val_L = Ret ppl ->
  body k s =
    let reported :=
      trace s ++ [EvTrainOneEpoch k; EvEvaluate ValData;
                  EvPrintValid k val_L ppl] in
    if (val_L <? best_val s)%float then
      let improved tr :=
        {| best_val := val_L; lr := lr s; params := p1;
           trainer_lr := trainer_lr s; trace := tr |} in
      match evaluate p1 test_data batch_size with
      | Ret test_L =>
          match math_exp test_L with
          | Ret test_ppl =>
              (Ret tt,
               improved (reported ++ [EvEvaluate TestData;
                                      EvPrintTest test_L test_ppl]))
          | Raise e => (Raise e, improved (reported ++ [EvEvaluate TestData]))
          end
      | Raise e => (Raise e, improved (reported ++ [EvEvaluate TestData]))
      end
    else
      (Ret tt,
       {| best_val := best_val s; lr := (lr s * 0.25)%float; params := p1;
          trainer_lr := (lr s * 0.25)%float;
          trace := reported ++ [EvSetLearningRate (lr s * 0.25)%float] |}).
Proof.
  intros Htrain Hval Hexp.
  unfold epoch_body, call_train_one_epoch, call_evaluate,
    set_learning_rate, set_best_val, set_lr, get, emit, lift, bind.
  run_step. rewrite Htrain. run_step. rewrite Hval, Hexp. run_step.
  cbn zeta.
  destruct (val_L <? best_val s)%float; run_step.
  - destruct (evaluate p1 test_data batch_size) as [test_L | e]; run_step.
    + destruct (math_exp test_L) as [test_ppl | e]; run_step;
        now rewrite <- !app_assoc.
    + now rewrite <- !app_assoc.
  - now rewrite <- !app_assoc.
Qed.

End TrainProperties.

Section TrainClaims.

Context {E : Externals} {U : Utilities E}.

Variables train_data val_data test_data : list Batch.
Variable batch_size : Z.
Variable grad_clip : float.
Variable log_interval : Z.

Local Abbreviation body :=
  (epoch_body train_data val_data test_data batch_size grad_clip
     log_interval).
Local Abbreviation upto :=
  (train_upto train_data val_data test_data batch_size grad_clip
     log_interval).
Local Abbreviation trained k s :=
  (train_one_epoch k train_data batch_size grad_clip log_interval
     (params s) (trainer_lr s)).

(** The events of an epoch are those its body appended. *)
Lemma events_since_app (s s' : TrainState) (evs : list Event) :
  trace s' = trace s ++ evs -> events_since s s' = evs.
Proof. unfold events_since. intros ->. apply skipn_app_exact. Qed.

(** As long as [train] is called with the learning rate the trainer
    holds, the trainer's learning rate and the variable [lr] agree at
    every epoch boundary. *)
Lemma trainer_lr_follows_lr (lr0 : float) (s0 : TrainState) :
  trainer_lr s0 = lr0 ->
  forall (k : nat) (r : Res unit) (s : TrainState),
    upto lr0 k s0 = (r, s) -> trainer_lr s = lr s.
Proof.
  intros H0. induction k as [ | k IH ]; intros r s Hrun.
  - injection Hrun as <- <-. exact H0.
  - rewrite (train_upto_S train_data val_data test_data batch_size
               grad_clip log_interval) in Hrun.
    destruct (upto lr0 k s0) as [[u | e] s1] eqn:Hk.
    + specialize (IH _ _ eq_refl).
      destruct (epoch_body_cases _ _ _ _ _ _ _ _ _ _ Hrun)
        as (evs & _ & [ (_ & _ & _ & Hl & Ht)
                      | (val_L & ppl & _ & _ & _ &
                         [ (_ & _ & Hl & Ht & _)
                         | (_ & _ & _ & Hl & Ht & _) ]) ]);
        congruence.
    + injection Hrun as <- <-. exact (IH _ _ eq_refl).
Qed.

(** One epoch leaves the best validation loss as it was or replaces it
    by the strictly smaller validation loss of that epoch. *)
Lemma best_val_step (lr0 : float) (s0 : TrainState) (k : nat) :
  let s := snd (upto lr0 k s0) in
  let s' := snd (upto lr0 (S k) s0) in
  best_val s' = best_val s
  \/ ((best_val s' <? best_val s)%float = true
      /\ evaluate (params s') val_data batch_size = Ret (best_val s')).
Proof.
  cbn zeta.
  rewrite (train_upto_S train_data val_data test_data batch_size
             grad_clip log_interval).
  destruct (upto lr0 k s0) as [[u | e] s] eqn:Hk; [ | now left ].
  destruct (body k s) as [r s'] eqn:Hbody. cbn [snd].
  destruct (epoch_body_cases _ _ _ _ _ _ _ _ _ _ Hbody)
    as (evs & _ & [ (_ & _ & Hb & _)
                  | (val_L & ppl & _ & Hval & _ &
                     [ (Hlt & Hb & _) | (_ & _ & Hb & _) ]) ]).
  - now left.
  - right. subst val_L. split; assumption.
  - now left.
Qed.

(** C1. At every epoch boundary of a run of [train] started with the
    learning rate the trainer holds: when the epoch's validation loss is
    strictly below the best so far, the variable [lr] and the trainer's
    learning rate are unchanged; otherwise both become 0.25 times the
    learning rate before; a validation loss equal to the best so far
    triggers the decay. *)
Theorem learning_rate_schedule (lr0 : float) (s0 : TrainState) (k : nat)
    (s s' : TrainState) :
  trainer_lr s0 = lr0 ->
  upto lr0 k s0 = (Ret tt, s) ->
  upto lr0 (S k) s0 = (Ret tt, s') ->
  exists val_L ppl,
    trained k s = Ret (params s')
    /\ evaluate (params s') val_data batch_size = Ret val_L
    /\ In (EvPrintValid k val_L ppl) (events_since s s')
    /\ ((val_L <? best_val s)%float = true ->
        lr s' = lr s /\ trainer_lr s' = trainer_lr s)
    /\ ((val_L <? best_val s)%float = false ->
        lr s' = (lr s * 0.25)%float
        /\ trainer_lr s' = (trainer_lr s * 0.25)%float)
    /\ ((val_L =? best_val s)%float = true ->
        trainer_lr s' = (trainer_lr s * 0.25)%float).
Proof.
  intros H0 Hk HSk.
  pose proof (trainer_lr_follows_lr lr0 s0 H0 k _ _ Hk) as Hinv.
  rewrite (train_upto_S train_data val_data test_data batch_size
             grad_clip log_interval), Hk in HSk.
  destruct (epoch_body_cases _ _ _ _ _ _ _ _ _ _ HSk)
    as (evs & Htr & [ (_ & (e & He) & _)
                    | (val_L & ppl & Htrain & Hval & _ & Hbranch) ]);
    [ discriminate He | ].
  exists val_L, ppl.
  rewrite (events_since_app s s' evs Htr).
  split; [ exact Htrain | split; [ exact Hval | ] ].
  destruct Hbranch as [ (Hlt & _ & Hl & Ht & Hev)
                      | (Hlt & _ & _ & Hl & Ht & Hev) ].
  - split.
    { destruct Hev as [ (e & _ & -> & _) | (tl & tp & _ & _ & _ & ->) ];
        cbn; tauto. }
    split; [ auto | ]. split; [ congruence | ].
    intros Heq. rewrite (eqb_not_ltb _ _ Heq) in Hlt. discriminate Hlt.
  - split; [ subst evs; cbn; tauto | ].
    split; [ congruence | ].
    rewrite Hinv. auto.
Qed.

(** C3. Over the epochs of a run the stored best validation loss never
    goes up: after a later epoch it is the same as after an earlier one
    or strictly smaller; and each epoch keeps it or replaces it by its
    own, strictly smaller, validation loss. *)
Theorem best_val_non_increasing (lr0 : float) (s0 : TrainState) :
  (forall i j : nat,
      (i <= j)%nat ->
      best_val (snd (upto lr0 j s0)) = best_val (snd (upto lr0 i s0))
      \/ (best_val (snd (upto lr0 j s0))
          <? best_val (snd (upto lr0 i s0)))%float = true)
  /\ (forall k : nat,
        let s := snd (upto lr0 k s0) in
        let s' := snd (upto lr0 (S k) s0) in
        best_val s' = best_val s
        \/ ((best_val s' <? best_val s)%float = true
            /\ evaluate (params s') val_data batch_size
               = Ret (best_val s'))).
Proof.
  split; [ | intros k; apply best_val_step ].
  intros i j Hij. induction Hij as [ | j Hij IH ].
  - now left.
  - destruct (best_val_step lr0 s0 j) as [Heq | [Hlt _]].
    + rewrite Heq. exact IH.
    + right. destruct IH as [Heq | Hlt'].
      * now rewrite <- Heq.
      * exact (ltb_trans _ _ _ Hlt Hlt').
Qed.

(** The events of an epoch, read off the state it leaves. *)
Ltac since_events :=
  unfold events_since; cbn [trace]; rewrite <- ?app_assoc;
  rewrite skipn_app_exact; cbn [app].

(** C4, as amended. In every epoch of a run whose validation line is
    printed, that is whose training and validation return and whose
    validation loss [math.exp] accepts, the test segment is evaluated
    exactly when the validation loss is strictly below the best recorded
    so far.  On such an improvement the new best is that loss, and the
    test line is printed when the test evaluation returns and [math.exp]
    accepts the test loss; without improvement the best is kept, the epoch
    completes and no test segment is evaluated. *)
Theorem test_evaluation_iff_improvement (lr0 : float) (s0 : TrainState)
    (k : nat) (s : TrainState) (p1 : Params) (val_L ppl : float)
    (r : Res unit) (s' : TrainState) :
  upto lr0 k s0 = (Ret tt, s) ->
  trained k s = Ret p1 ->
  evaluate p1 val_data batch_size = Ret val_L ->
  math_exp val_L = Ret ppl ->
  upto lr0 (S k) s0 = (r, s') ->
  params s' = p1
  /\ In (EvPrintValid k val_L ppl) (events_since s s')
  /\ (In (EvEvaluate TestData) (events_since s s') <->
      (val_L <? best_val s)%float = true)
  /\ ((val_L <? best_val s)%float = true ->
      best_val s' = val_L
      /\ forall test_L test_ppl,
           evaluate p1 test_data batch_size = Ret test_L ->
           math_exp test_L = Ret test_ppl ->
           r = Ret tt
           /\ In (EvPrintTest test_L test_ppl) (events_since s s'))
  /\ ((val_L <? best_val s)%float = false ->
      r = Ret tt
      /\ best_val s' = best_val s
      /\ forall test_L test_ppl,
           ~ In (EvPrintTest test_L test_ppl) (events_since s s')).
Proof.
  intros Hk Htrain Hval Hexp HSk.
  rewrite (train_upto_S train_data val_data test_data batch_size
             grad_clip log_interval), Hk in HSk.
  rewrite (epoch_body_reported train_data val_data test_data batch_size
             grad_clip log_interval k s p1 val_L ppl Htrain Hval Hexp)
    in HSk.
  cbn zeta in HSk.
  destruct (val_L <? best_val s)%float eqn:Hlt.
  - destruct (evaluate p1 test_data batch_size) as [test_L | e] eqn:Htest;
      [ destruct (math_exp test_L) as [test_ppl | e] eqn:Htexp | ];
      injection HSk as <- <-; since_events; run_step;
      (split; [ reflexivity | ]); (split; [ cbn; tauto | ]);
      (split; [ split; [ reflexivity | cbn; tauto ] | ]);
      (split; [ | discriminate ]); intros _;
      (split; [ reflexivity | ]); intros tl tp Htl Htp.
    + injection Htl as <-. rewrite Htexp in Htp. injection Htp as <-.
      split; [ reflexivity | cbn; tauto ].
    + injection Htl as <-. rewrite Htexp in Htp. discriminate Htp.
    + discriminate Htl.
  - injection HSk as <- <-. since_events. run_step.
    split; [ reflexivity | ]. split; [ cbn; tauto | ].
    split.
    { split; [ | discriminate ].
      intros Hin. cbn in Hin. intuition discriminate. }
    split; [ discriminate | ]. intros _.
    split; [ reflexivity | ]. split; [ reflexivity | ].
    intros tl tp Hin. cbn in Hin. intuition discriminate.
Qed.

(** C9, as amended. [best_val] starts at positive infinity, so a finite
    validation loss of the first epoch always counts as an improvement:
    whenever the first epoch's training and validation return a finite
    loss that [math.exp] accepts for the validation line, the test segment
    is evaluated, no learning rate is set, [lr] and the trainer's learning
    rate are those [train] started with, and the loss is the new best. *)
Theorem first_epoch_improves (lr0 : float) (s0 : TrainState)
    (p1 : Params) (val_L ppl : float) (r : Res unit) (s' : TrainState) :
  train_one_epoch 0 train_data batch_size grad_clip log_interval
    (params s0) (trainer_lr s0) = Ret p1 ->
  evaluate p1 val_data batch_size = Ret val_L ->
  is_finite val_L = true ->
  math_exp val_L = Ret ppl ->
  upto lr0 1 s0 = (r, s') ->
  (val_L <? infinity)%float = true
  /\ In (EvPrintValid 0 val_L ppl) (events_since s0 s')
  /\ In (EvEvaluate TestData) (events_since s0 s')
  /\ (forall v, ~ In (EvSetLearningRate v) (events_since s0 s'))
  /\ lr s' = lr0
  /\ trainer_lr s' = trainer_lr s0
  /\ best_val s' = val_L.
Proof.
  intros Htrain Hval Hfin Hexp Hrun.
  pose proof (finite_ltb_infinity val_L Hfin) as Hlt.
  rewrite (train_upto_S train_data val_data test_data batch_size
             grad_clip log_interval) in Hrun.
  change (upto lr0 0 s0)
    with (Ret tt : Res unit,
          {| best_val := infinity; lr := lr0; params := params s0;
             trainer_lr := trainer_lr s0; trace := trace s0 |})
    in Hrun.
  cbv iota beta in Hrun.
  rewrite (epoch_body_reported train_data val_data test_data batch_size
             grad_clip log_interval 0
             {| best_val := infinity; lr := lr0; params := params s0;
                trainer_lr := trainer_lr s0; trace := trace s0 |}
             p1 val_L ppl Htrain Hval Hexp)
    in Hrun.
  cbn zeta in Hrun. run_step_in Hrun. rewrite Hlt in Hrun.
  split; [ exact Hlt | ].
  destruct (evaluate p1 test_data batch_size) as [test_L | e];
    [ destruct (math_exp test_L) as [test_ppl | e] | ];
    injection Hrun as <- <-; since_events; run_step;
    (split; [ cbn; tauto | ]); (split; [ cbn; tauto | ]);
    (split; [ | repeat split ]);
    intros w Hin; cbn in Hin; intuition discriminate.
Qed.

End TrainClaims.

(** ** One training epoch *)

Module TrainOneEpochProperties.

Import TrainOneEpoch TruncatedPass.

Section Claims.

Context {E : Externals} {A : Autodiff E}.

Variable epoch : nat.
Variable grad_clip : float.
Variable log_interval : Z.
Variable lr : float.

(** What one batch appends to the trace: its forward pass, fed the
    detached state, its backward pass, and perhaps a log line. *)
Lemma train_batch_trace (i : nat) (data target : Matrix)
    (st : LoopState) (r : Res unit) (st' : LoopState) :
  train_batch epoch grad_clip log_interval lr (i, (data, target)) st
    = (r, st') ->
  exists evs,
    tl_trace st' =
      tl_trace st
      ++ TeForward i data (detach (tl_hidden st))
      :: TeBackward i [i] :: evs
    /\ (evs = [] \/ exists avg ppl, evs = [TeLog epoch i avg ppl]).
Proof.
  unfold train_batch, rolling_log, bind. cbn [fst].
  destruct (model (tl_params st) data (value (detach (tl_hidden st))))
    as [output v'].
  cbn [tl_trace tl_total_L tl_ntotal tl_params tl_hidden].
  destruct ((Z.of_nat i + 1) mod log_interval =? 0).
  - destruct (math_exp _) as [ppl | e]; intros H; injection H as <- <-;
      cbn [tl_trace].
    + rewrite <- app_assoc. eexists. split; [ reflexivity | ].
      right. eauto.
    + exists []. split; [ reflexivity | now left ].
  - intros H. injection H as <- <-. cbn [tl_trace].
    exists []. split; [ reflexivity | now left ].
Qed.

(** The loop over the batches, from any state: the trace grows by
    truncated events only, and when the loop ends without raising it
    has made one forward pass per batch, in order. *)
Lemma train_loop_trace (batches : list (nat * Batch)) :
  forall (st : LoopState) (r : Res unit) (st' : LoopState),
    for_each (train_batch epoch grad_clip log_interval lr) batches st
      = (r, st') ->
    exists evs,
      tl_trace st' = tl_trace st ++ evs
      /\ Forall truncated evs
      /\ (r = Ret tt ->
          forward_data evs = map (fun ib => fst (snd ib)) batches).
Proof.
  induction batches as [ | [i [data target]] rest IH ];
    intros st r st' Hrun.
  - injection Hrun as <- <-. exists []. rewrite app_nil_r.
    repeat split. constructor.
  - cbn [for_each] in Hrun. unfold bind in Hrun.
    revert Hrun.
    destruct (train_batch _ _ _ _ _ _) as [[u | e] st1] eqn:Hb;
      intros Hrun.
    + destruct (train_batch_trace _ _ _ _ _ _ Hb) as (evs1 & Ht1 & Hlog).
      destruct (IH _ _ _ Hrun) as (evs & Ht & Hall & Hdata).
      eexists. split; [ rewrite Ht, Ht1, <- app_assoc; reflexivity | ].
      split.
      * cbn [app]. repeat constructor.
        apply Forall_app. split; [ | exact Hall ].
        destruct Hlog as [-> | (a & p & ->)]; repeat constructor.
      * intros Hr. cbn [app forward_data map fst snd]. f_equal.
        rewrite <- (Hdata Hr).
        destruct Hlog as [-> | (a & p & ->)]; reflexivity.
    + injection Hrun as <- <-.
      destruct (train_batch_trace _ _ _ _ _ _ Hb) as (evs1 & Ht1 & Hlog).
      eexists. split; [ exact Ht1 | ]. split.
      * repeat constructor.
        destruct Hlog as [-> | (a & p & ->)]; repeat constructor.
      * discriminate.
Qed.

Lemma map_snd_enumerate {B : Type} (l : list B) :
  map snd (enumerate l) = l.
Proof.
  unfold enumerate. generalize 0%nat.
  induction l as [ | x l IH ]; intros n; [ reflexivity | ].
  cbn [length seq combine map snd]. now rewrite IH.
Qed.

Lemma without_logs_app (l1 l2 : list TrainEvent) :
  without_logs (l1 ++ l2) = without_logs l1 ++ without_logs l2.
Proof.
  induction l1 as [ | [ | | ] l1 IH ]; cbn; now rewrite ?IH.
Qed.

(** One batch, from any state: it feeds the value the state holds, cut
    off from whatever history that state has, its gradients are taken
    through its own forward pass alone, and it leaves the value the model
    returned and the parameters after one step. *)
Lemma train_batch_step (i : nat) (data target : Matrix)
    (st : LoopState) (r : Res unit) (st' : LoopState) :
  train_batch epoch grad_clip log_interval lr (i, (data, target)) st
    = (r, st') ->
  let out := model (tl_params st) data (value (tl_hidden st)) in
  let L := loss (fst out) (reshape_flat target) in
  exists evs,
    tl_trace st' =
      tl_trace st
      ++ TeForward i data {| value := value (tl_hidden st); history := [] |}
      :: TeBackward i [i] :: evs
    /\ without_logs evs = []
    /\ tl_params st' =
         sgd_step (tl_params st)
           (clip_global_norm (backward (tl_params st) L [i]) grad_clip) lr
    /\ value (tl_hidden st') = snd out.
Proof.
  unfold train_batch, rolling_log, bind, detach. cbn [fst value history].
  destruct (model (tl_params st) data (value (tl_hidden st)))
    as [output v'].
  cbn [tl_trace tl_total_L tl_ntotal tl_params tl_hidden fst snd].
  destruct ((Z.of_nat i + 1) mod log_interval =? 0).
  - destruct (math_exp _) as [ppl | e]; intros H; injection H as <- <-;
      cbn [tl_trace tl_params tl_hidden value].
    + rewrite <- app_assoc. eexists. split; [ reflexivity | ].
      repeat split.
    + exists []. repeat split.
  - intros H. injection H as <- <-.
    cbn [tl_trace tl_params tl_hidden value].
    exists []. repeat split.
Qed.

(** The loop over the batches, from any state, against the pass written
    from the spec: without its log lines the trace is the beginning of
    that pass, and all of it when the loop ends without raising. *)
Lemma train_loop_pass (batches : list (nat * Batch)) :
  forall (st : LoopState) (r : Res unit) (st' : LoopState),
    for_each (train_batch epoch grad_clip log_interval lr) batches st
      = (r, st') ->
    exists evs,
      tl_trace st' = tl_trace st ++ evs
      /\ (exists rest,
             truncated_pass grad_clip lr (tl_params st)
               (value (tl_hidden st)) batches
             = without_logs evs ++ rest)
      /\ (r = Ret tt ->
          without_logs evs
          = truncated_pass grad_clip lr (tl_params st)
              (value (tl_hidden st)) batches).
Proof.
  induction batches as [ | [i [data target]] rest IH ];
    intros st r st' Hrun.
  - injection Hrun as <- <-. exists []. rewrite app_nil_r.
    repeat split. exists []. reflexivity.
  - cbn [for_each] in Hrun. unfold bind in Hrun.
    revert Hrun.
    destruct (train_batch _ _ _ _ _ _) as [[u | e] st1] eqn:Hb;
      intros Hrun;
      destruct (train_batch_step _ _ _ _ _ _ Hb)
        as (evs1 & Ht1 & Hlog & Hp1 & Hv1);
      cbn [truncated_pass];
      destruct (model (tl_params st) data (value (tl_hidden st)))
        as [output v'];
      cbn [fst snd] in Hp1, Hv1.
    + destruct (IH _ _ _ Hrun) as (evs & Ht & (tail & Htail) & Hdone).
      rewrite Hp1, Hv1 in Htail, Hdone.
      eexists. split; [ rewrite Ht, Ht1, <- app_assoc; reflexivity | ].
      cbn [app without_logs]. rewrite without_logs_app, Hlog. cbn [app].
      split.
      * exists tail. now rewrite Htail.
      * intros Hr. now rewrite (Hdone Hr).
    + injection Hrun as <- <-.
      eexists. split; [ exact Ht1 | ].
      cbn [without_logs]. rewrite Hlog.
      split; [ | discriminate ].
      eexists. reflexivity.
Qed.

(** C2. In every epoch and at every training batch, the state fed to the
    model is the one carried over from the batch before (the initial state
    for the first batch) with its computation history cut off, so the
    gradients of a batch reach the forward pass of that batch alone and
    never cross a truncation boundary: apart from its log lines, the
    trace of an epoch is the beginning of the truncated pass written from
    the spec, and the whole of it when the epoch ends without raising. *)
Theorem training_detaches_hidden (train_data : list Batch)
    (batch_size : Z) (p : Params) :
  let run := train_one_epoch_run epoch train_data batch_size grad_clip
               log_interval p lr in
  let pass := truncated_pass grad_clip lr p (begin_state batch_size)
                (enumerate train_data) in
  Forall truncated (tl_trace (snd run))
  /\ (forall i data h,
        In (TeForward i data h) (tl_trace (snd run)) -> history h = [])
  /\ (forall i reach,
        In (TeBackward i reach) (tl_trace (snd run)) -> reach = [i])
  /\ (fst run = Ret tt ->
      forward_data (tl_trace (snd run)) = map fst train_data)
  /\ (exists rest, pass = without_logs (tl_trace (snd run)) ++ rest)
  /\ (fst run = Ret tt -> without_logs (tl_trace (snd run)) = pass).
Proof.
  cbn zeta. unfold train_one_epoch_run.
  destruct (for_each _ (enumerate train_data) _) as [r st'] eqn:Hrun.
  destruct (train_loop_trace _ _ _ _ Hrun) as (evs & Ht & Hall & Hdata).
  destruct (train_loop_pass _ _ _ _ Hrun) as (evs' & Ht' & Hpre & Hdone).
  cbn [fst snd]. cbn [loop_init tl_trace tl_params tl_hidden value app]
    in Ht, Ht', Hpre, Hdone.
  rewrite Ht. rewrite Ht in Ht'. subst evs'.
  split; [ exact Hall | ].
  split; [ | split; [ | split; [ | split ] ] ].
  - intros i data h Hin.
    exact (proj1 (Forall_forall truncated evs) Hall _ Hin).
  - intros i reach Hin.
    exact (proj1 (Forall_forall truncated evs) Hall _ Hin).
  - intros Hr. rewrite (Hdata Hr), <- map_map, map_snd_enumerate.
    reflexivity.
  - exact Hpre.
  - exact Hdone.
Qed.

(** C5. Before any batch is processed, the recurrent state of a
    training epoch and of a call of [evaluate] is the all-zero initial
    state, and the first batch of the segment is fed that state,
    whatever an earlier epoch or call left behind. *)
Theorem hidden_reset_at_start (batch_size : Z) (p : Params) :
  hidden (evaluate_loop p [] batch_size) = begin_state batch_size
  /\ (forall data target rest,
        exists later,
          forward_calls
            (evaluate_loop p ((data, target) :: rest) batch_size)
          = (data, begin_state batch_size) :: later)
  /\ tl_hidden (loop_init p batch_size)
       = {| value := begin_state batch_size; history := [] |}
  /\ (forall data target rest,
        exists later,
          tl_trace
            (snd (train_one_epoch_run epoch ((data, target) :: rest)
                    batch_size grad_clip log_interval p lr))
          = TeForward 0 data
              {| value := begin_state batch_size; history := [] |}
            :: later).
Proof.
  split; [ reflexivity | ]. split; [ | split; [ reflexivity | ] ].
  - intros data target rest. unfold evaluate_loop. cbn [fold_left].
    destruct (forward_calls_fold p rest
                (evaluate_step p (evaluate_init batch_size)
                   (data, target))) as [later Hl].
    rewrite Hl. unfold evaluate_step.
    destruct (model p data (hidden (evaluate_init batch_size))).
    cbn [forward_calls evaluate_init hidden app]. eauto.
  - intros data target rest. unfold train_one_epoch_run.
    cbn [enumerate length seq combine for_each]. unfold bind at 1.
    destruct (train_batch _ _ _ _ _ _) as [[u | e] st1] eqn:Hb;
      destruct (train_batch_trace _ _ _ _ _ _ Hb) as (evs1 & Ht1 & _);
      cbn [loop_init tl_trace tl_hidden app detach value] in Ht1.
    + destruct (for_each _ _ st1) as [r st'] eqn:Hrun.
      destruct (train_loop_trace _ _ _ _ Hrun) as (evs & Ht & _).
      cbn [snd]. rewrite Ht, Ht1. cbn [app]. eauto.
    + cbn [snd]. rewrite Ht1. eauto.
Qed.

End Claims.

End TrainOneEpochProperties.

(** ** The properties on the small instance *)

Module ToyRuns.

Import Toy.

(** The toy loss has one entry per target token. *)
Lemma toy_loss_size (out : @Output externals) (target : list nat) :
  @nd_size externals (@loss externals out target)
  = Z.of_nat (length target).
Proof. cbn. now rewrite length_map. Qed.

(** [evaluate] on the two validation batches, after one optimizer step:
    the average of eight losses of 4. *)
Lemma evaluate_average_loss_witness :
  val_data <> []
  /\ @evaluate externals 1%nat val_data 2
     = Ret (@average_loss externals
              (@segment_losses externals 1%nat
                 (@begin_state externals 2) val_data))
  /\ @evaluate externals 1%nat val_data 2 = Ret 4%float.
Proof.
  split; [ vm_compute; discriminate | ].
  split; [ | reflexivity ].
  apply (@evaluate_average_loss externals 1%nat val_data 2).
  vm_compute. discriminate.
Defined.

(** Two batches of 2 rows of 2 tokens: 8 tokens. *)
Lemma evaluate_token_count_witness :
  Forall (fun b => full_shape 2 2 (snd b)) val_data
  /\ ntotal (@evaluate_loop externals 1%nat val_data (Z.of_nat 2))
     = Z.of_nat 2 * Z.of_nat 2 * Z.of_nat (length val_data).
Proof.
  assert (Forall (fun b => full_shape 2 2 (snd b)) val_data) as Hshape.
  { vm_compute. repeat constructor. }
  split; [ exact Hshape | ].
  apply (@evaluate_token_count externals 2 2 1%nat val_data
           toy_loss_size Hshape).
Defined.

(** [evaluate] returns on the validation data, which is not empty. *)
Lemma evaluate_empty_raises_witness :
  @evaluate externals 1%nat val_data 2 = Ret 4%float
  /\ val_data <> [].
Proof.
  assert (@evaluate externals 1%nat val_data 2 = Ret 4%float) as Hv
    by reflexivity.
  split; [ exact Hv | ].
  exact (proj2 (proj2 (@evaluate_empty_raises externals 1%nat 2))
           val_data 4%float Hv).
Defined.

(** The third epoch reports the loss 2, equal to the best so far: the
    learning rate goes from 20 to 5. *)
Lemma learning_rate_schedule_witness :
  trainer_lr start = 20%float
  /\ after 2 = (Ret tt, state2)
  /\ after 3 = (Ret tt, state3)
  /\ lr state2 = 20%float
  /\ lr state3 = 5%float
  /\ exists val_L ppl,
       @train_one_epoch externals utilities 2 train_data 2 0.25%float 200
         (params state2) (trainer_lr state2)
       = Ret (params state3)
       /\ @evaluate externals (params state3) val_data 2 = Ret val_L
       /\ In (EvPrintValid 2 val_L ppl) (events_since state2 state3)
       /\ ((val_L <? best_val state2)%float = true ->
           lr state3 = lr state2
           /\ trainer_lr state3 = trainer_lr state2)
       /\ ((val_L <? best_val state2)%float = false ->
           lr state3 = (lr state2 * 0.25)%float
           /\ trainer_lr state3 = (trainer_lr state2 * 0.25)%float)
       /\ ((val_L =? best_val state2)%float = true ->
           trainer_lr state3 = (trainer_lr state2 * 0.25)%float).
Proof.
  assert (trainer_lr start = 20%float) as H0 by reflexivity.
  assert (after 2 = (Ret tt, state2)) as H2 by (vm_compute; reflexivity).
  assert (after 3 = (Ret tt, state3)) as H3 by (vm_compute; reflexivity).
  split; [ exact H0 | ]. split; [ exact H2 | ]. split; [ exact H3 | ].
  split; [ reflexivity | ]. split; [ reflexivity | ].
  exact (@learning_rate_schedule externals utilities train_data val_data
           test_data 2 0.25%float 200 20%float start 2%nat
           state2 state3 H0 H2 H3).
Defined.

(** From the first epoch boundary to the fourth the best validation loss
    went from 4 down to 2. *)
Lemma best_val_non_increasing_witness :
  (1 <= 4)%nat
  /\ (best_val (snd (after 4)) = best_val (snd (after 1))
      \/ (best_val (snd (after 4)) <? best_val (snd (after 1)))%float
         = true).
Proof.
  assert (1 <= 4)%nat as Hle by lia.
  split; [ exact Hle | ].
  exact (proj1 (@best_val_non_increasing externals utilities train_data
                  val_data test_data 2 0.25%float 200 20%float start)
           1%nat 4%nat Hle).
Defined.

(** The second epoch improves on the first (2 below 4) and evaluates the
    test segment. *)
Lemma test_evaluation_iff_improvement_witness :
  after 1 = (Ret tt, state1)
  /\ @train_one_epoch externals utilities 1 train_data 2 0.25%float 200
       (params state1) (trainer_lr state1)
     = @Ret (@Params externals) 2%nat
  /\ @evaluate externals 2%nat val_data 2 = Ret 2%float
  /\ @math_exp externals 2%float = Ret 3%float
  /\ after 2 = (Ret tt, state2)
  /\ (params state2 = 2%nat
      /\ In (EvPrintValid 1 2 3) (events_since state1 state2)
      /\ (In (EvEvaluate TestData) (events_since state1 state2) <->
          (2 <? best_val state1)%float = true)
      /\ ((2 <? best_val state1)%float = true ->
          best_val state2 = 2%float
          /\ forall test_L test_ppl,
               @evaluate externals 2%nat test_data 2 = Ret test_L ->
               @math_exp externals test_L = Ret test_ppl ->
               Ret tt = Ret tt
               /\ In (EvPrintTest test_L test_ppl)
                    (events_since state1 state2))
      /\ ((2 <? best_val state1)%float = false ->
          Ret tt = Ret tt
          /\ best_val state2 = best_val state1
          /\ forall test_L test_ppl,
               ~ In (EvPrintTest test_L test_ppl)
                   (events_since state1 state2))).
Proof.
  assert (after 1 = (Ret tt, state1)) as H1 by (vm_compute; reflexivity).
  assert (@train_one_epoch externals utilities 1 train_data 2 0.25%float
            200 (params state1) (trainer_lr state1)
          = @Ret (@Params externals) 2%nat) as Ht by reflexivity.
  assert (@evaluate externals 2%nat val_data 2 = Ret 2%float) as Hv
    by reflexivity.
  assert (@math_exp externals 2%float = Ret 3%float) as He by reflexivity.
  assert (after 2 = (Ret tt, state2)) as H2 by (vm_compute; reflexivity).
  split; [ exact H1 | ]. split; [ exact Ht | ]. split; [ exact Hv | ].
  split; [ exact He | ]. split; [ exact H2 | ].
  exact (@test_evaluation_iff_improvement externals utilities train_data
           val_data test_data 2 0.25%float 200 20%float start 1%nat
           state1 2%nat 2%float 3%float (Ret tt) state2 H1 Ht Hv He H2).
Defined.

(** C4 fails as stated, twice.  A first validation loss of 1000 is
    strictly below the best, infinity, yet [math.exp(1000)] on the
    validation line raises and the test segment is never evaluated.  And
    with an empty test segment the improving epoch stores the new best
    and raises in the test evaluation, so no test loss is reported. *)
Lemma test_evaluation_without_improvement_report :
  (ToyEpoch.with_overflow 0 = (Ret tt, ToyEpoch.overflow_state0)
   /\ @evaluate ToyEpoch.externals_overflow 1%nat val_data 2
      = Ret 1000%float
   /\ (1000 <? best_val ToyEpoch.overflow_state0)%float = true
   /\ ToyEpoch.with_overflow 1
      = (Raise OverflowError, ToyEpoch.overflow_state1)
   /\ ~ In (EvEvaluate TestData)
          (events_since ToyEpoch.overflow_state0 ToyEpoch.overflow_state1))
  /\ (ToyFailing.without_test 0 = (Ret tt, ToyFailing.started_test)
      /\ @evaluate externals 1%nat val_data 2 = Ret 4%float
      /\ (4 <? best_val ToyFailing.started_test)%float = true
      /\ ToyFailing.without_test 1
         = (Raise ZeroDivisionError, ToyFailing.stopped_test)
      /\ best_val ToyFailing.stopped_test = 4%float
      /\ forall test_L test_ppl,
           ~ In (EvPrintTest test_L test_ppl)
               (events_since ToyFailing.started_test
                  ToyFailing.stopped_test)).
Proof.
  split.
  - split; [ vm_compute; reflexivity | ].
    split; [ reflexivity | ]. split; [ reflexivity | ].
    split; [ vm_compute; reflexivity | ].
    vm_compute. intuition discriminate.
  - split; [ vm_compute; reflexivity | ].
    split; [ reflexivity | ]. split; [ reflexivity | ].
    split; [ vm_compute; reflexivity | ].
    split; [ reflexivity | ].
    intros test_L test_ppl. vm_compute. intuition discriminate.
Qed.

(** The first epoch reports the finite loss 4, which becomes the best;
    the test segment is evaluated and the learning rate stays 20. *)
Lemma first_epoch_improves_witness :
  @train_one_epoch externals utilities 0 train_data 2 0.25%float 200
    (params start) (trainer_lr start)
  = @Ret (@Params externals) 1%nat
  /\ @evaluate externals 1%nat val_data 2 = Ret 4%float
  /\ is_finite 4 = true
  /\ @math_exp externals 4%float = Ret 5%float
  /\ after 1 = (Ret tt, state1)
  /\ ((4 <? infinity)%float = true
      /\ In (EvPrintValid 0 4 5) (events_since start state1)
      /\ In (EvEvaluate TestData) (events_since start state1)
      /\ (forall v, ~ In (EvSetLearningRate v) (events_since start state1))
      /\ lr state1 = 20%float
      /\ trainer_lr state1 = trainer_lr start
      /\ best_val state1 = 4%float).
Proof.
  assert (@train_one_epoch externals utilities 0 train_data 2 0.25%float
            200 (params start) (trainer_lr start)
          = @Ret (@Params externals) 1%nat) as Ht by reflexivity.
  assert (@evaluate externals 1%nat val_data 2 = Ret 4%float) as Hv
    by reflexivity.
  assert (is_finite 4 = true) as Hfin by reflexivity.
  assert (@math_exp externals 4%float = Ret 5%float) as He by reflexivity.
  assert (after 1 = (Ret tt, state1)) as H1 by (vm_compute; reflexivity).
  split; [ exact Ht | ]. split; [ exact Hv | ]. split; [ exact Hfin | ].
  split; [ exact He | ]. split; [ exact H1 | ].
  exact (@first_epoch_improves externals utilities train_data val_data
           test_data 2 0.25%float 200 20%float start 1%nat 4%float 5%float
           (Ret tt) state1 Ht Hv Hfin He H1).
Defined.

(** C9 fails as stated: a first validation loss of 1000 is finite and
    below infinity, yet [math.exp(1000)] on the validation line raises
    [OverflowError]; the test segment is not evaluated and the best
    validation loss is still infinity. *)
Lemma first_epoch_finite_loss_overflows :
  @train_one_epoch ToyEpoch.externals_overflow ToyEpoch.utilities_overflow
    0 train_data 2 0.25%float 200 (params ToyEpoch.start_overflow)
    (trainer_lr ToyEpoch.start_overflow)
  = @Ret (@Params ToyEpoch.externals_overflow) 1%nat
  /\ @evaluate ToyEpoch.externals_overflow 1%nat val_data 2
     = Ret 1000%float
  /\ is_finite 1000 = true
  /\ (1000 <? infinity)%float = true
  /\ @math_exp ToyEpoch.externals_overflow 1000%float = Raise OverflowError
  /\ ToyEpoch.with_overflow 1
     = (Raise OverflowError, ToyEpoch.overflow_state1)
  /\ ~ In (EvEvaluate TestData)
         (events_since ToyEpoch.start_overflow ToyEpoch.overflow_state1)
  /\ best_val ToyEpoch.overflow_state1 = infinity.
Proof.
  split; [ reflexivity | ]. split; [ reflexivity | ].
  split; [ reflexivity | ]. split; [ reflexivity | ].
  split; [ reflexivity | ]. split; [ vm_compute; reflexivity | ].
  split; [ vm_compute; intuition discriminate | reflexivity ].
Qed.

(** An epoch of three batches, logging after the second: the batches are
    fed the values 0, 1 and 2 that the model returned one after the
    other, each without history, and the gradients of each batch reach
    that batch alone. *)
Lemma training_detaches_hidden_witness :
  fst ToyEpoch.epoch3 = Ret tt
  /\ In (@TrainOneEpoch.TeLog externals 0 1 6.5 7.5)
       (TrainOneEpoch.tl_trace (snd ToyEpoch.epoch3))
  /\ TruncatedPass.without_logs
       (TrainOneEpoch.tl_trace (snd ToyEpoch.epoch3))
     = [ @TrainOneEpoch.TeForward externals 0 [[1; 8]; [2; 9]]%nat
           (@TrainOneEpoch.mkTracked externals 0%nat []);
         @TrainOneEpoch.TeBackward externals 0 [0%nat];
         @TrainOneEpoch.TeForward externals 1 [[3; 10]; [4; 11]]%nat
           (@TrainOneEpoch.mkTracked externals 1%nat []);
         @TrainOneEpoch.TeBackward externals 1 [1%nat];
         @TrainOneEpoch.TeForward externals 2 [[5; 12]; [6; 13]]%nat
           (@TrainOneEpoch.mkTracked externals 2%nat []);
         @TrainOneEpoch.TeBackward externals 2 [2%nat] ].
Proof.
  assert (fst ToyEpoch.epoch3 = Ret tt) as Hr by (vm_compute; reflexivity).
  split; [ exact Hr | ].
  split; [ vm_compute; tauto | ].
  exact (eq_trans
           (proj2 (proj2 (proj2 (proj2 (proj2
              (@TrainOneEpochProperties.training_detaches_hidden externals
                 autodiff 0 0.25%float 2 20%float ToyEpoch.train_data3 2
                 0%nat))))) Hr)
           eq_refl).
Defined.

End ToyRuns.

(** * Further properties of the notebook's code *)

(** ** The environment cells *)

Lemma length_range (n : Z) : Z.of_nat (length (range n)) = Z.max 0 n.
Proof. unfold range. rewrite length_map, length_seq. lia. Qed.

(** With no GPU the context is the CPU alone, with [n > 0] GPUs it is
    [gpu 0 .. gpu (n-1)]: for every [num_gpus >= 0] the context is not
    empty, so [context[0]] exists, and the batch size is
    [64 * max(1, num_gpus)], at least 64. *)
Theorem context_not_empty (num_gpus : Z) :
  0 <= num_gpus ->
  context num_gpus <> []
  /\ hd_error (context num_gpus)
     = Some (if num_gpus =? 0 then cpu else gpu 0)
  /\ batch_size_of num_gpus = 64 * Z.max 1 num_gpus
  /\ 64 <= batch_size_of num_gpus.
Proof.
  intros Hn. unfold batch_size_of, context.
  destruct (Z.eqb_spec num_gpus 0) as [-> | Hnz].
  - cbn. repeat split; try lia. discriminate.
  - rewrite length_map, length_range.
    assert (exists m, Z.to_nat num_gpus = S m) as [m Hm].
    { exists (Nat.pred (Z.to_nat num_gpus)). lia. }
    unfold range. rewrite Hm. cbn [seq map hd_error].
    repeat split; try lia. discriminate.
Qed.

(** A negative [num_gpus] is true for [if num_gpus] and gives an empty
    range: the context is empty and the batch size is zero. *)
Theorem context_empty_when_negative (num_gpus : Z) :
  num_gpus < 0 ->
  context num_gpus = [] /\ batch_size_of num_gpus = 0.
Proof.
  intros Hn. unfold batch_size_of, context, range.
  destruct (Z.eqb_spec num_gpus 0) as [-> | _]; [ lia | ].
  assert (Z.to_nat num_gpus = 0%nat) as -> by lia.
  split; reflexivity.
Qed.

(** ** The recurrent state in [evaluate] *)

Section EvaluateCarry.

Context {E : Externals}.

Lemma evaluate_fold_calls (p : Params) (data_source : list Batch) :
  forall st : EvalState,
    forward_calls (fold_left (evaluate_step p) data_source st)
    = forward_calls st ++ carried_calls p (hidden st) data_source
    /\ hidden (fold_left (evaluate_step p) data_source st)
       = carried_state p (hidden st) data_source.
Proof.
  induction data_source as [ | [data target] rest IH ]; intros st.
  - cbn. now rewrite app_nil_r.
  - cbn [fold_left carried_calls carried_state].
    destruct (IH (evaluate_step p st (data, target))) as [Hc Hh].
    rewrite Hc, Hh. unfold evaluate_step.
    destruct (model p data (hidden st)) as [output h'].
    cbn [forward_calls hidden snd]. now rewrite <- app_assoc.
Qed.

Lemma map_fst_carried_calls (p : Params) (data_source : list Batch) :
  forall h : Hidden,
    map fst (carried_calls p h data_source) = map fst data_source.
Proof.
  induction data_source as [ | [data target] rest IH ]; intros h.
  - reflexivity.
  - cbn [carried_calls map fst]. now rewrite IH.
Qed.

(** [evaluate] calls the model once per batch, on the data of the batches
    in segment order; the first call is fed the initial state and every
    later call the state the call before it returned, never a fresh one,
    and the loop ends holding the state the last call returned. *)
Theorem evaluate_carries_state (p : Params) (data_source : list Batch)
    (batch_size : Z) :
  let st := evaluate_loop p data_source batch_size in
  forward_calls st = carried_calls p (begin_state batch_size) data_source
  /\ map fst (forward_calls st) = map fst data_source
  /\ length (forward_calls st) = length data_source
  /\ hidden st = carried_state p (begin_state batch_size) data_source.
Proof.
  cbn zeta. unfold evaluate_loop.
  destruct (evaluate_fold_calls p data_source (evaluate_init batch_size))
    as [Hc Hh].
  cbn [evaluate_init forward_calls hidden app] in Hc, Hh.
  rewrite Hc, Hh. repeat split.
  - apply map_fst_carried_calls.
  - rewrite <- (length_map fst), map_fst_carried_calls. apply length_map.
Qed.

End EvaluateCarry.

(** ** Whole runs of [train] *)

Lemma ltb_irrefl (x : float) : (x <? x)%float = false.
Proof.
  rewrite FloatAxioms.ltb_spec. unfold SFltb.
  destruct (Prim2SF x) as [s | s | | s m e]; cbn [SFcompare];
    try reflexivity; destruct s; try reflexivity;
    rewrite Z.compare_refl;
    change (Pos.compare_cont Eq m m) with (Pos.compare m m);
    rewrite Pos.compare_refl; reflexivity.
Qed.

(** Only a number can be below another: nan is below nothing. *)
Lemma ltb_not_nan (x y : float) :
  (x <? y)%float = true -> is_nan x = false.
Proof.
  rewrite FloatAxioms.ltb_spec. unfold Prim2SF.
  destruct (is_nan x); [ discriminate | reflexivity ].
Qed.

Lemma trained_epochs_app (l1 l2 : list Event) :
  trained_epochs (l1 ++ l2) = trained_epochs l1 ++ trained_epochs l2.
Proof.
  induction l1 as [ | [ | | | | | ] l1 IH ]; cbn; now rewrite ?IH.
Qed.

Lemma reported_epochs_app (l1 l2 : list Event) :
  reported_epochs (l1 ++ l2) = reported_epochs l1 ++ reported_epochs l2.
Proof.
  induction l1 as [ | [ | | | | | ] l1 IH ]; cbn; now rewrite ?IH.
Qed.

Lemma reported_losses_app (l1 l2 : list Event) :
  reported_losses (l1 ++ l2) = reported_losses l1 ++ reported_losses l2.
Proof.
  induction l1 as [ | [ | | | | | ] l1 IH ]; cbn; now rewrite ?IH.
Qed.

Lemma count_test_evals_app (l1 l2 : list Event) :
  count_test_evals (l1 ++ l2)
  = (count_test_evals l1 + count_test_evals l2)%nat.
Proof.
  induction l1 as [ | [ | [ | ] | | | | ] l1 IH ]; cbn; now rewrite ?IH.
Qed.

Lemma count_decays_app (l1 l2 : list Event) :
  count_decays (l1 ++ l2) = (count_decays l1 + count_decays l2)%nat.
Proof.
  induction l1 as [ | [ | | | | | ] l1 IH ]; cbn; now rewrite ?IH.
Qed.

Section TrainRuns.

Context {E : Externals} {U : Utilities E}.

Variables train_data val_data test_data : list Batch.
Variable batch_size : Z.
Variable grad_clip : float.
Variable log_interval : Z.

Local Abbreviation body :=
  (epoch_body train_data val_data test_data batch_size grad_clip
     log_interval).
Local Abbreviation upto :=
  (train_upto train_data val_data test_data batch_size grad_clip
     log_interval).

(** Induction over the epochs of a run: a property of the outcome, the
    state and the events since the call holds after every number of
    epochs when it holds at the start, is kept by the body of the loop,
    and is kept when the run has stopped. *)
Lemma train_upto_ind
    (P : nat -> Res unit -> TrainState -> list Event -> Prop)
    (lr0 : float) (s0 : TrainState) :
  P 0%nat (Ret tt) (snd (upto lr0 0 s0)) [] ->
  (forall k s evs0 r s' evs,
      P k (Ret tt) s evs0 ->
      body k s = (r, s') ->
      trace s' = trace s ++ evs ->
      P (S k) r s' (evs0 ++ evs)) ->
  (forall k e s evs0, P k (Raise e) s evs0 -> P (S k) (Raise e) s evs0) ->
  forall k,
    P k (fst (upto lr0 k s0)) (snd (upto lr0 k s0))
      (events_since s0 (snd (upto lr0 k s0))).
Proof.
  intros Hbase Hstep Hstop k.
  assert (exists evs,
             trace (snd (upto lr0 k s0)) = trace s0 ++ evs
             /\ P k (fst (upto lr0 k s0)) (snd (upto lr0 k s0)) evs)
    as (evs & Htr & HP).
  { induction k as [ | k IH ].
    - exists []. split; [ cbn; now rewrite app_nil_r | exact Hbase ].
    - destruct IH as (evs0 & Htr0 & HP0).
      rewrite (train_upto_S train_data val_data test_data batch_size
                 grad_clip log_interval).
      destruct (upto lr0 k s0) as [[[] | e] s] eqn:Hk; cbn [fst snd] in *.
      + destruct (body k s) as [r s'] eqn:Hbody. cbn [fst snd].
        destruct (epoch_body_cases _ _ _ _ _ _ _ _ _ _ Hbody)
          as (evs & Htr & _).
        exists (evs0 ++ evs). split.
        * now rewrite Htr, Htr0, app_assoc.
        * exact (Hstep k s evs0 r s' evs HP0 Hbody Htr).
      + exists evs0. split; [ exact Htr0 | ]. now apply Hstop. }
  unfold events_since. rewrite Htr, skipn_app_exact. exact HP.
Qed.

(** Once an epoch has raised, more epochs change nothing. *)
Lemma raise_persists (lr0 : float) (s0 : TrainState) (k : nat) (e : Exn)
    (s : TrainState) :
  upto lr0 k s0 = (Raise e, s) ->
  forall j, (k <= j)%nat -> upto lr0 j s0 = (Raise e, s).
Proof.
  intros Hk j Hle. induction Hle as [ | j Hle IH ]; [ exact Hk | ].
  rewrite (train_upto_S train_data val_data test_data batch_size
             grad_clip log_interval), IH.
  reflexivity.
Qed.

(** The events of the body of the loop, from the ways through it. *)
Ltac epoch_events Hbody Htr :=
  let evs' := fresh "evs" in
  let Htr' := fresh "Htr" in
  let Hc := fresh "Hcases" in
  destruct (epoch_body_cases _ _ _ _ _ _ _ _ _ _ Hbody)
    as (evs' & Htr' & Hc);
  rewrite Htr' in Htr; apply app_inv_head in Htr; subst evs'.


(** The five ways through the body of the loop, with their events. *)
Ltac epoch_cases Hcases :=
  destruct Hcases
    as [ (Hev & (e0 & Hr) & Hb & Hl & Ht)
       | (v & p & Htrain & Hval & Hexp &
          [ (Hlt & Hb & Hl & Ht &
             [ (e0 & Hr & Hev & Hwhy)
             | (tl & tp & Htest & Htexp & Hr & Hev) ])
          | (Hlt & Hr & Hb & Hl & Ht & Hev) ]) ];
  [ destruct Hev as [Hev | Hev] | | | ];
  try (match type of Hev with ?x = _ => subst x end);
  try (match type of Hr with ?x = _ => subst x end).

(** With an empty validation segment, a run of at least one epoch trains
    epoch 0 and then raises [ZeroDivisionError] from [evaluate]: the
    parameters are those epoch 0 left, [train] prints none of its own
    lines (no validation, test or throughput line), and the best
    validation loss and the learning rates are untouched. *)
Theorem empty_validation_raises (lr0 : float) (s0 : TrainState)
    (epochs : nat) (p1 : Params) :
  val_data = [] ->
  (1 <= epochs)%nat ->
  train_one_epoch 0 train_data batch_size grad_clip log_interval
    (params s0) (trainer_lr s0) = Ret p1 ->
  train train_data val_data test_data batch_size grad_clip log_interval
    epochs lr0 s0
  = (Raise ZeroDivisionError,
     {| best_val := infinity; lr := lr0; params := p1;
        trainer_lr := trainer_lr s0;
        trace := trace s0 ++ [EvTrainOneEpoch 0; EvEvaluate ValData] |}).
Proof.
  intros Hval Hle Htrain.
  rewrite train_is_upto.
  rewrite (raise_persists lr0 s0 1 ZeroDivisionError
             {| best_val := infinity; lr := lr0; params := p1;
                trainer_lr := trainer_lr s0;
                trace := trace s0
                         ++ [EvTrainOneEpoch 0; EvEvaluate ValData] |});
    [ reflexivity | | exact Hle ].
  rewrite (train_upto_S train_data val_data test_data batch_size
             grad_clip log_interval).
  change (upto lr0 0 s0)
    with (Ret tt : Res unit,
          {| best_val := infinity; lr := lr0; params := params s0;
             trainer_lr := trainer_lr s0; trace := trace s0 |}).
  cbv iota beta.
  unfold epoch_body, call_train_one_epoch, call_evaluate, emit, bind.
  run_step. rewrite Htrain. run_step. rewrite Hval.
  cbn [evaluate evaluate_loop fold_left evaluate_init total_L ntotal
       div_int Z.eqb].
  now rewrite <- app_assoc.
Qed.

(** With an empty test segment, an epoch whose validation loss improves
    on the best raises [ZeroDivisionError] from the test evaluation, after
    the new best has been stored; no test line is printed. *)
Theorem empty_test_raises (lr0 : float) (s0 : TrainState) (k : nat)
    (s : TrainState) (r : Res unit) (s' : TrainState) (val_L ppl : float) :
  test_data = [] ->
  upto lr0 k s0 = (Ret tt, s) ->
  upto lr0 (S k) s0 = (r, s') ->
  In (EvPrintValid k val_L ppl) (events_since s s') ->
  (val_L <? best_val s)%float = true ->
  r = Raise ZeroDivisionError
  /\ best_val s' = val_L
  /\ lr s' = lr s
  /\ (forall test_L test_ppl,
         ~ In (EvPrintTest test_L test_ppl) (events_since s s')).
Proof.
  intros Htest0 Hk HSk Hin Hlt0.
  rewrite (train_upto_S train_data val_data test_data batch_size
             grad_clip log_interval), Hk in HSk.
  destruct (epoch_body_cases _ _ _ _ _ _ _ _ _ _ HSk)
    as (evs & Htr & Hcases).
  rewrite (events_since_app s s' evs Htr) in *.
  epoch_cases Hcases.
  - cbn in Hin. intuition discriminate.
  - cbn in Hin. intuition discriminate.
  - assert (v = val_L) as -> by (cbn in Hin; intuition congruence).
    assert (e0 = ZeroDivisionError) as ->.
    { destruct Hwhy as [Hw | (tl & Hw & _)]; rewrite Htest0 in Hw;
        cbn in Hw; congruence. }
    repeat split; try reflexivity; try assumption.
    intros test_L test_ppl Hin'. cbn in Hin'. intuition discriminate.
  - rewrite Htest0 in Htest. cbn in Htest. discriminate Htest.
  - assert (v = val_L) as -> by (cbn in Hin; intuition congruence).
    congruence.
Qed.

(** After any number of epochs, [lr] is the argument of [train] multiplied
    by 0.25 once for every time the learning rate was set, which happened
    in at most as many epochs as have run; the trainer holds that same
    value from the first decay on, and before it the value it held when
    [train] was called. *)
Theorem learning_rate_closed_form (lr0 : float) (s0 : TrainState)
    (k : nat) :
  let s := snd (upto lr0 k s0) in
  let d := count_decays (events_since s0 s) in
  lr s = decayed lr0 d
  /\ trainer_lr s = (if (d =? 0)%nat then trainer_lr s0 else decayed lr0 d)
  /\ (d <= k)%nat.
Proof.
  cbn zeta.
  apply (train_upto_ind
           (fun k _ s evs =>
              lr s = decayed lr0 (count_decays evs)
              /\ trainer_lr s
                 = (if (count_decays evs =? 0)%nat then trainer_lr s0
                    else decayed lr0 (count_decays evs))
              /\ (count_decays evs <= k)%nat)
           lr0 s0).
  - cbn. repeat split. lia.
  - intros k0 s evs0 r s' evs (Hlr & Htlr & Hd) Hbody Htr.
    epoch_events Hbody Htr. rewrite count_decays_app.
    epoch_cases Hcases; cbn [count_decays];
      rewrite ?Nat.add_0_r, ?Nat.add_1_r;
      try (repeat split; [ congruence | congruence | lia ]).
    cbn [Nat.eqb decayed Nat.iter].
    repeat split; [ | | lia ].
    + rewrite Hl, Hlr. reflexivity.
    + rewrite Ht, Hlr. reflexivity.
  - intros k0 e s evs0 (Hlr & Htlr & Hd). repeat split; try assumption. lia.
Qed.

(** Every epoch that completes does exactly one of two things: it
    evaluates the test segment or it decays the learning rate.  After [k]
    epochs of a run that has not raised, [train_one_epoch] has been called
    for the epochs 0 to [k-1] in this order, one validation line has been
    printed for each of them, and test evaluations and decays add up to
    [k]; in any run they add up to at most [k]. *)
Theorem epochs_accounted (lr0 : float) (s0 : TrainState) (k : nat) :
  let run := upto lr0 k s0 in
  let evs := events_since s0 (snd run) in
  (count_test_evals evs + count_decays evs <= k)%nat
  /\ (fst run = Ret tt ->
      trained_epochs evs = seq 0 k
      /\ reported_epochs evs = seq 0 k
      /\ (count_test_evals evs + count_decays evs)%nat = k).
Proof.
  cbn zeta.
  apply (train_upto_ind
           (fun k r _ evs =>
              (count_test_evals evs + count_decays evs <= k)%nat
              /\ (r = Ret tt ->
                  trained_epochs evs = seq 0 k
                  /\ reported_epochs evs = seq 0 k
                  /\ (count_test_evals evs + count_decays evs)%nat = k))
           lr0 s0).
  - cbn. repeat split. lia.
  - intros k0 s evs0 r s' evs (Hle & Hok) Hbody Htr.
    destruct (Hok eq_refl) as (Hte & Hre & Hcnt).
    epoch_events Hbody Htr.
    rewrite count_test_evals_app, count_decays_app, trained_epochs_app,
      reported_epochs_app, seq_S, Hte, Hre.
    epoch_cases Hcases;
      cbn [count_test_evals count_decays trained_epochs reported_epochs
           Nat.add];
      (split; [ lia | ]); intros Hret; try discriminate Hret;
      repeat split; lia.
  - intros k0 e s evs0 (Hle & _). split; [ lia | discriminate ].
Qed.

(** The stored best validation loss is a minimum of the losses reported so
    far: none of them is strictly below it, and it is one of them, or
    still positive infinity. *)
Theorem best_val_is_minimum (lr0 : float) (s0 : TrainState) (k : nat) :
  let s := snd (upto lr0 k s0) in
  let losses := reported_losses (events_since s0 s) in
  (forall v, In v losses -> (v <? best_val s)%float = false)
  /\ (best_val s = infinity \/ In (best_val s) losses).
Proof.
  cbn zeta.
  apply (train_upto_ind
           (fun _ _ s evs =>
              (forall v, In v (reported_losses evs) ->
                         (v <? best_val s)%float = false)
              /\ (best_val s = infinity
                  \/ In (best_val s) (reported_losses evs)))
           lr0 s0).
  - split; [ intros v [] | now left ].
  - intros k0 s evs0 r s' evs (Hmin & Hmem) Hbody Htr.
    epoch_events Hbody Htr. rewrite reported_losses_app.
    assert (forall w,
               (w <? best_val s)%float = true ->
               forall x, In x (reported_losses evs0) ->
                         (x <? w)%float = false) as Hlower.
    { intros w Hw x Hx. destruct (x <? w)%float eqn:Hxw; [ | reflexivity ].
      rewrite <- (Hmin x Hx). symmetry.
      exact (ltb_trans _ _ _ Hxw Hw). }
    epoch_cases Hcases; cbn [reported_losses].
    + rewrite app_nil_r, Hb. split; assumption.
    + rewrite app_nil_r, Hb. split; assumption.
    + rewrite Hb. split.
      * intros x Hx. apply in_app_or in Hx. destruct Hx as [Hx | [<- | []]].
        -- exact (Hlower _ Hlt x Hx).
        -- apply ltb_irrefl.
      * right. apply in_or_app. right. now left.
    + rewrite Hb. split.
      * intros x Hx. apply in_app_or in Hx. destruct Hx as [Hx | [<- | []]].
        -- exact (Hlower _ Hlt x Hx).
        -- apply ltb_irrefl.
      * right. apply in_or_app. right. now left.
    + rewrite Hb. split.
      * intros x Hx. apply in_app_or in Hx. destruct Hx as [Hx | [<- | []]].
        -- exact (Hmin x Hx).
        -- exact Hlt.
      * destruct Hmem as [Hm | Hm]; [ now left | ].
        right. apply in_or_app. now left.
  - intros k0 e s evs0 H. exact H.
Qed.

(** A validation loss that is not a number never counts as an
    improvement: the stored best is never nan, and an epoch that reports
    nan keeps the best, evaluates no test segment and decays the learning
    rate. *)
Theorem nan_never_improves (lr0 : float) (s0 : TrainState) (k : nat) :
  is_nan (best_val (snd (upto lr0 k s0))) = false
  /\ (forall s r s' val_L ppl,
        upto lr0 k s0 = (Ret tt, s) ->
        upto lr0 (S k) s0 = (r, s') ->
        In (EvPrintValid k val_L ppl) (events_since s s') ->
        is_nan val_L = true ->
        r = Ret tt
        /\ best_val s' = best_val s
        /\ lr s' = (lr s * 0.25)%float
        /\ ~ In (EvEvaluate TestData) (events_since s s')).
Proof.
  split.
  - apply (train_upto_ind
             (fun _ _ s _ => is_nan (best_val s) = false) lr0 s0).
    + reflexivity.
    + intros k0 s evs0 r s' evs Hnan Hbody Htr.
      epoch_events Hbody Htr.
      epoch_cases Hcases; try congruence;
        rewrite Hb; exact (ltb_not_nan _ _ Hlt).
    + intros k0 e s evs0 H. exact H.
  - intros s r s' val_L ppl Hk HSk Hin Hnan.
    rewrite (train_upto_S train_data val_data test_data batch_size
               grad_clip log_interval), Hk in HSk.
    destruct (epoch_body_cases _ _ _ _ _ _ _ _ _ _ HSk)
      as (evs & Htr & Hcases).
    rewrite (events_since_app s s' evs Htr) in *.
    epoch_cases Hcases.
    + cbn in Hin. intuition discriminate.
    + cbn in Hin. intuition discriminate.
    + assert (v = val_L) as -> by (cbn in Hin; intuition congruence).
      rewrite (ltb_not_nan _ _ Hlt) in Hnan. discriminate Hnan.
    + assert (v = val_L) as -> by (cbn in Hin; intuition congruence).
      rewrite (ltb_not_nan _ _ Hlt) in Hnan. discriminate Hnan.
    + repeat split; try assumption.
      intros Hin'. cbn in Hin'. intuition discriminate.
Qed.

End TrainRuns.

(** ** The further properties on the small instances *)

Module ToyExtras.

Import Toy ToyFailing.

(** The notebook's own setting, [num_gpus = 1]: one GPU, batches of 64. *)
Lemma context_not_empty_witness :
  0 <= 1
  /\ context 1 = [gpu 0]
  /\ (context 1 <> []
      /\ hd_error (context 1) = Some (if 1 =? 0 then cpu else gpu 0)
      /\ batch_size_of 1 = 64 * Z.max 1 1
      /\ 64 <= batch_size_of 1).
Proof.
  assert (0 <= 1) as Hn by lia.
  split; [ exact Hn | ]. split; [ reflexivity | ].
  exact (context_not_empty 1 Hn).
Defined.

Lemma context_empty_when_negative_witness :
  -1 < 0 /\ context (-1) = [] /\ batch_size_of (-1) = 0.
Proof.
  assert (-1 < 0) as Hn by lia.
  split; [ exact Hn | ].
  exact (context_empty_when_negative (-1) Hn).
Defined.


Lemma empty_validation_raises_witness :
  @nil Batch = []
  /\ (1 <= 3)%nat
  /\ @train_one_epoch externals utilities 0 train_data 2 0.25%float 200
       (params start) (trainer_lr start)
     = @Ret (@Params externals) 1%nat
  /\ @train externals utilities train_data [] test_data 2 0.25%float 200
       3 20%float start
     = (Raise ZeroDivisionError,
        @mkTrainState externals infinity 20%float 1%nat (trainer_lr start)
          (trace start ++ [EvTrainOneEpoch 0; EvEvaluate ValData])).
Proof.
  assert (1 <= 3)%nat as Hle by lia.
  assert (@train_one_epoch externals utilities 0 train_data 2 0.25%float
            200 (params start) (trainer_lr start)
          = @Ret (@Params externals) 1%nat) as Ht
    by reflexivity.
  split; [ reflexivity | ]. split; [ exact Hle | ]. split; [ exact Ht | ].
  exact (@empty_validation_raises externals utilities train_data []
           test_data 2 0.25%float 200 20%float start 3%nat 1%nat
           eq_refl Hle Ht).
Defined.

(** Without test data the first epoch, whose loss 4 improves on infinity,
    raises after storing 4 as the best. *)
Lemma empty_test_raises_witness :
  without_test 0 = (Ret tt, started_test)
  /\ without_test 1 = (Raise ZeroDivisionError, stopped_test)
  /\ In (EvPrintValid 0 4 5) (events_since started_test stopped_test)
  /\ (4 <? best_val started_test)%float = true
  /\ (@Raise unit ZeroDivisionError = Raise ZeroDivisionError
      /\ best_val stopped_test = 4%float
      /\ lr stopped_test = lr started_test
      /\ (forall test_L test_ppl,
             ~ In (EvPrintTest test_L test_ppl)
                 (events_since started_test stopped_test))).
Proof.
  assert (without_test 0 = (Ret tt, started_test)) as H0
    by (vm_compute; reflexivity).
  assert (without_test 1 = (Raise ZeroDivisionError, stopped_test)) as H1
    by (vm_compute; reflexivity).
  assert (In (EvPrintValid 0 4 5) (events_since started_test stopped_test))
    as Hin by (vm_compute; tauto).
  assert ((4 <? best_val started_test)%float = true) as Hlt by reflexivity.
  split; [ exact H0 | ]. split; [ exact H1 | ]. split; [ exact Hin | ].
  split; [ exact Hlt | ].
  exact (@empty_test_raises externals utilities train_data val_data []
           2 0.25%float 200 20%float start 0%nat started_test
           (Raise ZeroDivisionError) stopped_test 4%float 5%float
           eq_refl H0 H1 Hin Hlt).
Defined.

(** Four completed epochs: trained and reported in order, two test
    evaluations and two decays. *)
Lemma epochs_accounted_witness :
  fst (after 4) = Ret tt
  /\ trained_epochs (events_since start (snd (after 4))) = seq 0 4
  /\ reported_epochs (events_since start (snd (after 4))) = seq 0 4
  /\ (count_test_evals (events_since start (snd (after 4)))
      + count_decays (events_since start (snd (after 4))))%nat = 4%nat.
Proof.
  assert (fst (after 4) = Ret tt) as Hr by (vm_compute; reflexivity).
  split; [ exact Hr | ].
  exact (proj2 (@epochs_accounted externals utilities train_data val_data
                  test_data 2 0.25%float 200 20%float start 4%nat) Hr).
Defined.

(** The loss 3 of the fourth epoch is not below the best, 2. *)
Lemma best_val_is_minimum_witness :
  In 3%float (reported_losses (events_since start (snd (after 4))))
  /\ (3 <? best_val (snd (after 4)))%float = false.
Proof.
  assert (In 3%float
            (reported_losses (events_since start (snd (after 4)))))
    as Hin by (vm_compute; tauto).
  split; [ exact Hin | ].
  exact (proj1 (@best_val_is_minimum externals utilities train_data
                  val_data test_data 2 0.25%float 200 20%float start
                  4%nat) 3%float Hin).
Defined.

(** The second epoch of the model that diverges reports nan: the best
    stays 4 and the learning rate goes from 20 to 5. *)
Lemma nan_never_improves_witness :
  with_nan 1 = (Ret tt, nan_state1)
  /\ with_nan 2 = (Ret tt, nan_state2)
  /\ In (EvPrintValid 1 nan nan) (events_since nan_state1 nan_state2)
  /\ is_nan nan = true
  /\ (Ret tt = Ret tt
      /\ best_val nan_state2 = best_val nan_state1
      /\ lr nan_state2 = (lr nan_state1 * 0.25)%float
      /\ ~ In (EvEvaluate TestData) (events_since nan_state1 nan_state2)).
Proof.
  assert (with_nan 1 = (Ret tt, nan_state1)) as H1
    by (vm_compute; reflexivity).
  assert (with_nan 2 = (Ret tt, nan_state2)) as H2
    by (vm_compute; reflexivity).
  assert (In (EvPrintValid 1 nan nan) (events_since nan_state1 nan_state2))
    as Hin by (vm_compute; tauto).
  assert (is_nan nan = true) as Hnan by reflexivity.
  split; [ exact H1 | ]. split; [ exact H2 | ]. split; [ exact Hin | ].
  split; [ exact Hnan | ].
  exact (proj2 (@nan_never_improves externals_nan utilities_nan train_data
                  val_data test_data 2 0.25%float 200 20%float start_nan
                  1%nat)
           nan_state1 (Ret tt) nan_state2 nan nan H1 H2 Hin Hnan).
Defined.

End ToyExtras.
